(** * DoItGlobals path resolution (dash_dev/doit_base.py)

    A shallow embedding of [DoItGlobals.set_paths], [ensure_dir] and the two
    task functions that read the shared [DIG] instance, together with the
    part of [pathlib] and of the file system that they touch.

    Modelling conventions:
    - paths follow [pathlib.PurePosixPath]: an anchor and a list of
      components; [p / s] parses the string [s];
    - the file system is a finite map from paths to nodes; it has no
      symbolic links and no permissions, and it does not resolve [..] or a
      relative path against the working directory;
    - a regular file carries what [toml.load(f)['tool']['poetry']] yields
      for it, with string values;
    - logging ([logger.info], [logger.warning], [logger_context]) changes
      nothing that is modelled and is left out. *)

From Stdlib Require Import ZArith Ascii String List.
From stdpp Require Import base decidable countable strings list gmap.

#[local] Open Scope string_scope.
#[local] Open Scope list_scope.

(** ** Strings *)

Module Str.

Definition slash : ascii := "/"%char.
Definition dash : ascii := "-"%char.

(** The one-character string holding a double quote. *)
Definition dquote : string := String (ascii_of_nat 34) EmptyString.

(** [c in s] for a one-character [c]. *)
Fixpoint contains (c : ascii) (s : string) : bool :=
  match s with
  | EmptyString => false
  | String d s' => if Ascii.eqb c d then true else contains c s'
  end.

(** [s.split('/')]. *)
Fixpoint split_slash (s : string) : list string :=
  match s with
  | EmptyString => [EmptyString]
  | String c s' =>
      if Ascii.eqb c slash then EmptyString :: split_slash s'
      else match split_slash s' with
           | [] => [String c EmptyString]
           | w :: ws => String c w :: ws
           end
  end.

(** ['/'.join(ws)]. *)
Fixpoint join_slash (ws : list string) : string :=
  match ws with
  | [] => EmptyString
  | [w] => w
  | w :: ws' => w +:+ "/" +:+ join_slash ws'
  end.

(** Number of ['/'] characters [s] starts with. *)
Fixpoint leading_slashes (s : string) : nat :=
  match s with
  | String c s' => if Ascii.eqb c slash then S (leading_slashes s') else 0
  | EmptyString => 0
  end.

Fixpoint starts_with (pre s : string) : bool :=
  match pre, s with
  | EmptyString, _ => true
  | String a pre', String b s' => Ascii.eqb a b && starts_with pre' s'
  | String _ _, EmptyString => false
  end.

(** [sub in s]. *)
Fixpoint mentions (sub s : string) : bool :=
  starts_with sub s ||
  match s with
  | EmptyString => false
  | String _ s' => mentions sub s'
  end.

(** [s.endswith(suf)]. *)
Definition ends_with (suf s : string) : bool :=
  starts_with (String.rev suf) (String.rev s).

End Str.

(** ** Paths ([pathlib.PurePosixPath]) *)

(** The anchor of a path: relative, ['/'], or the ['//'] that POSIX keeps
    apart from ['/']. *)
Inductive Anchor := Rel | Root | Root2.

Record Path := mkPath { anchor : Anchor; parts : list string }.

#[global] Instance Anchor_eq_dec : EqDecision Anchor.
Proof. solve_decision. Defined.

#[global] Instance Path_eq_dec : EqDecision Path.
Proof. solve_decision. Defined.

Definition Anchor_to_nat (a : Anchor) : nat :=
  match a with Rel => 0 | Root => 1 | Root2 => 2 end.

Definition Anchor_of_nat (n : nat) : Anchor :=
  match n with 0 => Rel | 1 => Root | _ => Root2 end.

#[global] Instance Anchor_countable : Countable Anchor.
Proof.
  apply (inj_countable' Anchor_to_nat Anchor_of_nat).
  intros []; reflexivity.
Defined.

#[global] Instance Path_countable : Countable Path.
Proof.
  apply (inj_countable' (fun p => (anchor p, parts p))
                        (fun ap => mkPath (fst ap) (snd ap))).
  intros []; reflexivity.
Defined.

Module PurePath.

(** A component survives parsing unless it is empty or ['.']. *)
Definition keep_part (w : string) : bool :=
  negb (String.eqb w EmptyString) && negb (String.eqb w ".").

Definition parse_parts (s : string) : list string :=
  List.filter keep_part (Str.split_slash s).

(** Exactly two leading slashes give ['//']; one, or three and more,
    give ['/']. *)
Definition parse_anchor (s : string) : Anchor :=
  match Str.leading_slashes s with
  | 0 => Rel
  | 2 => Root2
  | _ => Root
  end.

(** [Path(s)]. *)
Definition of_string (s : string) : Path :=
  mkPath (parse_anchor s) (parse_parts s).

(** [p / s]: an anchored right operand replaces the left one. *)
Definition joinpath (p : Path) (s : string) : Path :=
  let q := of_string s in
  match anchor q with
  | Rel => mkPath (anchor p) (parts p ++ parts q)
  | _ => q
  end.

(** [p.name]. *)
Definition name (p : Path) : string := List.last (parts p) EmptyString.

(** [p.parent]. *)
Definition parent (p : Path) : Path :=
  mkPath (anchor p) (List.removelast (parts p)).

Definition anchor_str (a : Anchor) : string :=
  match a with Rel => EmptyString | Root => "/" | Root2 => "//" end.

(** [str(p)]. *)
Definition to_string (p : Path) : string :=
  match anchor p, parts p with
  | Rel, [] => "."
  | a, ws => anchor_str a +:+ Str.join_slash ws
  end.

End PurePath.

Notation "p </> s" := (PurePath.joinpath p s) (at level 40, left associativity).

(** ** File system *)

(** The [tool.poetry] table of a manifest, string keys to string values. *)
Abbreviation PoetryTable := (gmap string string).

(** A directory, or a regular file together with the result of
    [toml.load(f)['tool']['poetry']]: [None] when loading or either lookup
    raises. *)
Inductive Node :=
| Dir
| File (poetry : option PoetryTable).

Abbreviation FS := (gmap Path Node).

Inductive exn :=
| RuntimeError (msg : string)
| KeyError (key : string)
| TomlLoadError
| FileNotFoundError
| FileExistsError
| NotADirectoryError
| AttributeError (attr : string).

Module Fs.

(** The node at [p]. The anchor itself (['/'], or the working directory
    for a relative path) is always a directory. *)
Definition stat (fs : FS) (p : Path) : option Node :=
  match parts p with
  | [] => Some Dir
  | _ => fs !! p
  end.

(** [p.exists()], [p.is_dir()], [p.is_file()]. *)
Definition exists_ (fs : FS) (p : Path) : bool :=
  match stat fs p with Some _ => true | None => false end.

Definition is_dir (fs : FS) (p : Path) : bool :=
  match stat fs p with Some Dir => true | _ => false end.

Definition is_file (fs : FS) (p : Path) : bool :=
  match stat fs p with Some (File _) => true | _ => false end.

(** [os.mkdir(p)]. *)
Definition os_mkdir (fs : FS) (p : Path) : exn + FS :=
  match stat fs p with
  | Some _ => inl FileExistsError
  | None =>
      match stat fs (PurePath.parent p) with
      | None => inl FileNotFoundError
      | Some (File _) => inl NotADirectoryError
      | Some Dir => inr (<[p := Dir]> fs)
      end
  end.

(** [p.mkdir(parents=False, exist_ok=True)]: any [OSError] is swallowed
    when [p] is a directory. *)
Definition mkdir_exist_ok (fs : FS) (p : Path) : exn + FS :=
  match os_mkdir fs p with
  | inr fs' => inr fs'
  | inl e => if is_dir fs p then inr fs else inl e
  end.

(** [p.mkdir(parents=True, exist_ok=True)] for the path with anchor [a]
    and components [rev rparts]: on [FileNotFoundError] the parent is made
    first, then [p] itself without [parents]. *)
Fixpoint mkdir_parents (a : Anchor) (rparts : list string) (fs : FS) : exn + FS :=
  let p := mkPath a (rev rparts) in
  match os_mkdir fs p with
  | inr fs' => inr fs'
  | inl FileNotFoundError =>
      match rparts with
      | [] => inl FileNotFoundError
      | _ :: rest =>
          match mkdir_parents a rest fs with
          | inl e => inl e
          | inr fs1 => mkdir_exist_ok fs1 p
          end
      end
  | inl e => if is_dir fs p then inr fs else inl e
  end.

Definition mkdir_p (fs : FS) (p : Path) : exn + FS :=
  mkdir_parents (anchor p) (rev (parts p)) fs.

(** [fnmatch(name, '*.py')]. *)
Definition is_py (name : string) : bool := Str.ends_with ".py" name.

(** [q] is an entry directly in [p] whose name matches ['*.py']. *)
Definition py_child (p q : Path) : bool :=
  bool_decide (anchor q = anchor p) &&
  bool_decide (PurePath.parent q = p) &&
  negb (bool_decide (parts q = [])) &&
  is_py (PurePath.name q).

(** [p.glob('*.py')]: nothing unless [p] is a directory. *)
Definition glob_py (fs : FS) (p : Path) : list Path :=
  if is_dir fs p then List.filter (py_child p) (map fst (map_to_list fs)) else [].

(** [toml.load(p)['tool']['poetry']] on an existing file. *)
Definition load_poetry (fs : FS) (p : Path) : exn + PoetryTable :=
  match stat fs p with
  | Some (File (Some t)) => inr t
  | Some (File None) => inl TomlLoadError
  | Some Dir => inl TomlLoadError
  | None => inl FileNotFoundError
  end.

End Fs.

(** The exceptions [mkdir] can raise. *)
Definition os_error (e : exn) : Prop :=
  e = FileExistsError \/ e = FileNotFoundError \/ e = NotADirectoryError.

(** What a successful [mkdir] leaves: every old entry, and new directories
    only. *)
Definition extends_with_dirs (fs fs' : FS) : Prop :=
  forall q, fs' !! q = fs !! q \/ (fs !! q = None /\ fs' !! q = Some Dir).

(** ** The globals object and the process state *)

(** [lint_paths] starts as the list [[]] of the class and is rebound to a
    set by [set_paths]. *)
Inductive LintPaths :=
| LintList (l : list Path)
| LintSet (s : gset Path).

(** The attributes [set_paths] assigns, as an instance sees them: each reads
    the class default until it is assigned. *)
Record DoItGlobals := mkDIG {
  flake8_path : option Path;
  lint_paths : LintPaths;
  source_path : option Path;
  test_path : option Path;
  toml_path : option Path;
  pkg_name : option string;
  doc_dir : option Path;
  coverage_path : option Path;
  test_report_path : option Path;
  src_examples_dir : option Path;
  tmp_examples_dir : option Path;
  template_dir : option Path;
  pkg_version : option string
}.

(** [DoItGlobals()]: every attribute at its class default. *)
Definition DoItGlobals_new : DoItGlobals :=
  {| flake8_path := None; lint_paths := LintList []; source_path := None;
     test_path := None; toml_path := None; pkg_name := None; doc_dir := None;
     coverage_path := None; test_report_path := None; src_examples_dir := None;
     tmp_examples_dir := None; template_dir := None; pkg_version := None |}.

(** Class attributes that nothing assigns. *)
Definition excluded_files : list string := ["__init__.py"].
Definition external_doc_dirs : list string := ["examples"; "scripts"; "tests"].

(** The state of the process: the module-level instance [DIG], the file
    system and the working directory. *)
Record World := mkWorld {
  DIG : DoItGlobals;
  disk : FS;
  cwd : Path
}.

Inductive Result (A : Type) :=
| Return (a : A)
| Raise (e : exn).
Arguments Return {A} a.
Arguments Raise {A} e.

(** A computation changes the world and returns or raises; what it did
    before raising stays done. *)
Definition M (A : Type) : Type := World -> Result A * World.

Definition ret {A} (a : A) : M A := fun w => (Return a, w).

Definition bind {A B} (k : A -> M B) (m : M A) : M B :=
  fun w =>
    match m w with
    | (Return a, w') => k a w'
    | (Raise e, w') => (Raise e, w')
    end.

Definition raise {A} (e : exn) : M A := fun w => (Raise e, w).

#[global] Instance M_ret : MRet M := @ret.
#[global] Instance M_bind : MBind M := @bind.

(** [self.attr = v] on [DIG]. *)
Definition assign (f : DoItGlobals -> DoItGlobals) : M unit :=
  fun w => (Return tt, mkWorld (f (DIG w)) (disk w) (cwd w)).

(** A pure query of the file system. *)
Definition ask {A} (q : FS -> A) : M A := fun w => (Return (q (disk w)), w).

(** [Path.cwd()]. *)
Definition Path_cwd : M Path := fun w => (Return (cwd w), w).

(** Lift a file-system result that raises instead of returning. *)
Definition lift {A} (r : exn + A) : M A :=
  match r with inl e => raise e | inr a => ret a end.

Definition set_flake8_path (v : option Path) (g : DoItGlobals) : DoItGlobals :=
  mkDIG v (lint_paths g) (source_path g) (test_path g) (toml_path g) (pkg_name g)
    (doc_dir g) (coverage_path g) (test_report_path g) (src_examples_dir g)
    (tmp_examples_dir g) (template_dir g) (pkg_version g).
Definition set_lint_paths (v : LintPaths) (g : DoItGlobals) : DoItGlobals :=
  mkDIG (flake8_path g) v (source_path g) (test_path g) (toml_path g) (pkg_name g)
    (doc_dir g) (coverage_path g) (test_report_path g) (src_examples_dir g)
    (tmp_examples_dir g) (template_dir g) (pkg_version g).
Definition set_source_path (v : option Path) (g : DoItGlobals) : DoItGlobals :=
  mkDIG (flake8_path g) (lint_paths g) v (test_path g) (toml_path g) (pkg_name g)
    (doc_dir g) (coverage_path g) (test_report_path g) (src_examples_dir g)
    (tmp_examples_dir g) (template_dir g) (pkg_version g).
Definition set_test_path (v : option Path) (g : DoItGlobals) : DoItGlobals :=
  mkDIG (flake8_path g) (lint_paths g) (source_path g) v (toml_path g) (pkg_name g)
    (doc_dir g) (coverage_path g) (test_report_path g) (src_examples_dir g)
    (tmp_examples_dir g) (template_dir g) (pkg_version g).
Definition set_toml_path (v : option Path) (g : DoItGlobals) : DoItGlobals :=
  mkDIG (flake8_path g) (lint_paths g) (source_path g) (test_path g) v (pkg_name g)
    (doc_dir g) (coverage_path g) (test_report_path g) (src_examples_dir g)
    (tmp_examples_dir g) (template_dir g) (pkg_version g).
Definition set_pkg_name (v : option string) (g : DoItGlobals) : DoItGlobals :=
  mkDIG (flake8_path g) (lint_paths g) (source_path g) (test_path g) (toml_path g) v
    (doc_dir g) (coverage_path g) (test_report_path g) (src_examples_dir g)
    (tmp_examples_dir g) (template_dir g) (pkg_version g).
Definition set_doc_dir (v : option Path) (g : DoItGlobals) : DoItGlobals :=
  mkDIG (flake8_path g) (lint_paths g) (source_path g) (test_path g) (toml_path g)
    (pkg_name g) v (coverage_path g) (test_report_path g) (src_examples_dir g)
    (tmp_examples_dir g) (template_dir g) (pkg_version g).
Definition set_coverage_path (v : option Path) (g : DoItGlobals) : DoItGlobals :=
  mkDIG (flake8_path g) (lint_paths g) (source_path g) (test_path g) (toml_path g)
    (pkg_name g) (doc_dir g) v (test_report_path g) (src_examples_dir g)
    (tmp_examples_dir g) (template_dir g) (pkg_version g).
Definition set_test_report_path (v : option Path) (g : DoItGlobals) : DoItGlobals :=
  mkDIG (flake8_path g) (lint_paths g) (source_path g) (test_path g) (toml_path g)
    (pkg_name g) (doc_dir g) (coverage_path g) v (src_examples_dir g)
    (tmp_examples_dir g) (template_dir g) (pkg_version g).
Definition set_src_examples_dir (v : option Path) (g : DoItGlobals) : DoItGlobals :=
  mkDIG (flake8_path g) (lint_paths g) (source_path g) (test_path g) (toml_path g)
    (pkg_name g) (doc_dir g) (coverage_path g) (test_report_path g) v
    (tmp_examples_dir g) (template_dir g) (pkg_version g).
Definition set_tmp_examples_dir (v : option Path) (g : DoItGlobals) : DoItGlobals :=
  mkDIG (flake8_path g) (lint_paths g) (source_path g) (test_path g) (toml_path g)
    (pkg_name g) (doc_dir g) (coverage_path g) (test_report_path g)
    (src_examples_dir g) v (template_dir g) (pkg_version g).
Definition set_template_dir (v : option Path) (g : DoItGlobals) : DoItGlobals :=
  mkDIG (flake8_path g) (lint_paths g) (source_path g) (test_path g) (toml_path g)
    (pkg_name g) (doc_dir g) (coverage_path g) (test_report_path g) (src_examples_dir g)
    (tmp_examples_dir g) v (pkg_version g).
Definition set_pkg_version (v : option string) (g : DoItGlobals) : DoItGlobals :=
  mkDIG (flake8_path g) (lint_paths g) (source_path g) (test_path g) (toml_path g)
    (pkg_name g) (doc_dir g) (coverage_path g) (test_report_path g) (src_examples_dir g)
    (tmp_examples_dir g) (template_dir g) v.

(** ** [ensure_dir] *)

(** [dir_path.mkdir(parents=True, exist_ok=True)]. *)
Definition ensure_dir (dir_path : Path) : M unit :=
  fun w =>
    match Fs.mkdir_p (disk w) dir_path with
    | inl e => (Raise e, w)
    | inr fs' => (Return tt, mkWorld (DIG w) fs' (cwd w))
    end.

(** ** [DoItGlobals.set_paths] *)

(** [poetry_config[key]]. *)
Definition getitem (t : PoetryTable) (key : string) : M string :=
  match t !! key with
  | Some v => ret v
  | None => raise (KeyError key)
  end.

Definition missing_toml_msg (toml root : Path) : string :=
  "Could not find " +:+ PurePath.name toml +:+ ". Check that the "
    +:+ PurePath.to_string root +:+ " is correct".

Definition dash_msg (name : string) (toml : Path) : string :=
  "Replace dashes in name with underscores (" +:+ name +:+ ") in "
    +:+ PurePath.to_string toml.

(** The keyword argument [pkg_name] is accepted and never read. *)
Definition set_paths (pkg_name_arg : option string)
    (source_path_arg doc_dir_arg : option Path) : M unit :=
  here ← Path_cwd;
  let root := match source_path_arg with None => here | Some p => p end in
  assign (set_source_path (Some root));;
  let tests := root </> "tests" in
  assign (set_test_path (Some tests));;
  let docs := match doc_dir_arg with None => root </> "docs" | Some d => d end in
  assign (set_doc_dir (Some docs));;
  let templates := docs </> "templates" in
  assign (set_template_dir (Some templates));;
  ensure_dir templates;;
  assign (set_coverage_path (Some (docs </> "cov_html/index.html")));;
  assign (set_test_report_path (Some (docs </> "test_report.html")));;
  assign (set_flake8_path (Some (root </> ".flake8")));;
  let toml := root </> "pyproject.toml" in
  assign (set_toml_path (Some toml));;
  found ← ask (fun fs => Fs.is_file fs toml);
  if negb found then raise (RuntimeError (missing_toml_msg toml root)) else
  poetry_config ← (fun w => lift (Fs.load_poetry (disk w) toml) w);
  version ← getitem poetry_config "version";
  assign (set_pkg_version (Some version));;
  name ← getitem poetry_config "name";
  assign (set_pkg_name (Some name));;
  if Str.contains Str.dash name then raise (RuntimeError (dash_msg name toml)) else
  let examples := root </> "tests/examples" in
  assign (set_src_examples_dir (Some examples));;
  assign (set_tmp_examples_dir (Some (root </> (name +:+ "/0EX"))));;
  examples_found ← ask (fun fs => Fs.is_dir fs examples);
  (if negb examples_found then assign (set_src_examples_dir None) else ret tt);;
  let sub_dirs := name :: external_doc_dirs in
  let candidates := map (fun subdir => root </> subdir) sub_dirs in
  py_files ← ask (fun fs => Fs.glob_py fs root);
  let candidates := candidates ++ ([tests] ++ py_files) in
  assign (set_lint_paths (LintList candidates));;
  kept ← ask (fun fs => List.filter (Fs.exists_ fs) candidates);
  assign (set_lint_paths (LintSet (list_to_set kept))).

(** ** Tasks that read [DIG] *)

Inductive Action :=
| ShellCmd (cmd : string)
| PyCallable (name : string)
| Interactive (cmd : string).

(** The ['title'] entry; [_show_cmd] is the only function stored there. *)
Inductive Title := show_cmd.

Record DoItTask := mkTask {
  actions : list Action;
  title : Title;
  verbosity : Z
}.

Definition debug_task (actions : list Action) (verbosity : Z) : DoItTask :=
  {| actions := actions; title := show_cmd; verbosity := verbosity |}.


(** [task_export_req()]: no parameter, the path comes from [DIG]. *)
Definition task_export_req : M DoItTask :=
  fun w =>
    match toml_path (DIG w) with
    | None => (Raise (AttributeError "parent"), w)
    | Some toml =>
        let req_path := PurePath.parent toml </> "requirements.txt" in
        (Return (debug_task
           [ShellCmd ("poetry export -f " +:+ PurePath.name req_path +:+ " -o "
                      +:+ Str.dquote +:+ PurePath.to_string req_path +:+ Str.dquote
                      +:+ " --without-hashes --dev")] 2), w)
    end.


(** ** The attributes of the globals object *)

Inductive Value :=
| VNone
| VStr (s : string)
| VStrs (l : list string)
| VPath (p : Path)
| VPaths (l : LintPaths).

Definition of_opt_path (o : option Path) : Value :=
  match o with None => VNone | Some p => VPath p end.

Definition of_opt_str (o : option string) : Value :=
  match o with None => VNone | Some s => VStr s end.

(** Every data attribute an instance shows, in the order of the class
    body; [dash_dev_dir] is [Path(__file__).parent]. *)
Definition vars (dash_dev_dir : Path) (g : DoItGlobals) : list (string * Value) :=
  [ ("dash_dev_dir", VPath dash_dev_dir);
    ("flake8_path", of_opt_path (flake8_path g));
    ("path_gitchangelog", VPath (dash_dev_dir </> ".gitchangelog.rc"));
    ("lint_paths", VPaths (lint_paths g));
    ("excluded_files", VStrs excluded_files);
    ("external_doc_dirs", VStrs external_doc_dirs);
    ("source_path", of_opt_path (source_path g));
    ("test_path", of_opt_path (test_path g));
    ("toml_path", of_opt_path (toml_path g));
    ("pkg_name", of_opt_str (pkg_name g));
    ("doc_dir", of_opt_path (doc_dir g));
    ("coverage_path", of_opt_path (coverage_path g));
    ("test_report_path", of_opt_path (test_report_path g));
    ("src_examples_dir", of_opt_path (src_examples_dir g));
    ("tmp_examples_dir", of_opt_path (tmp_examples_dir g));
    ("template_dir", of_opt_path (template_dir g));
    ("pkg_version", of_opt_str (pkg_version g)) ].

Definition is_location (v : Value) : bool :=
  match v with VPath _ => true | _ => false end.

(** The attributes that hold one path. *)
Definition locations (dash_dev_dir : Path) (g : DoItGlobals) : list string :=
  map fst (List.filter (fun kv => is_location (snd kv)) (vars dash_dev_dir g)).

(** Those among them whose name speaks of a tag. *)
Definition tag_file_locations (dash_dev_dir : Path) (g : DoItGlobals) : list string :=
  List.filter (Str.mentions "tag") (locations dash_dev_dir g).

(** ** Sample projects *)

Module Sample.

Definition proj : Path := PurePath.of_string "/work/proj".
Definition home : Path := PurePath.of_string "/home/dev".
Definition site : Path := PurePath.of_string "/usr/lib/python3/site-packages/dash_dev".

Definition manifest (name : string) : PoetryTable :=
  <["name" := name]> (<["version" := "0.1.0"]> ∅).

Definition tree (toml : list (Path * Node)) : FS :=
  list_to_map
    ([ (PurePath.of_string "/work", Dir);
       (proj, Dir);
       (proj </> "tests", Dir);
       (proj </> "tests/examples", Dir);
       (proj </> "my_pkg", Dir);
       (proj </> "dodo.py", File None);
       (proj </> "README.md", File None) ] ++ toml).

Definition start (fs : FS) : World := mkWorld DoItGlobals_new fs home.

(** A project that [set_paths] accepts. *)
Definition good : World :=
  start (tree [(proj </> "pyproject.toml", File (Some (manifest "my_pkg")))]).

(** No manifest. *)
Definition bare : World := start (tree []).

(** No manifest, and [docs] is a regular file. *)
Definition blocked : World := start (tree [(proj </> "docs", File None)]).

(** A dash in the name. *)
Definition dashed : World :=
  start (tree [(proj </> "pyproject.toml", File (Some (manifest "my-pkg")))]).



(** An empty name. *)
Definition nameless : World :=
  start (tree [(proj </> "pyproject.toml", File (Some (manifest EmptyString)))]).

(** The state [set_paths(source_path=proj)] leaves behind. *)
Abbreviation run w := (snd (set_paths None (Some proj) None w)).

Abbreviation good_after := (run good).

End Sample.

(** ** The rest of the module: directory helpers and the WatchCode file *)

(** Exceptions that [set_paths] cannot raise and the code below can. *)
Inductive pyexn :=
| Builtin (e : exn)
| TypeError
| OSError
| IsADirectoryError.

Inductive Outcome (A : Type) :=
| Ok (a : A)
| Err (e : pyexn).
Arguments Ok {A} a.
Arguments Err {A} e.

(** Computations over a state [S]; as in [M], what was done before an
    exception stays done. *)
Definition St (S A : Type) : Type := S -> Outcome A * S.

Definition St_ret {S A} (a : A) : St S A := fun s => (Ok a, s).

Definition St_bind {S A B} (k : A -> St S B) (m : St S A) : St S B :=
  fun s =>
    match m s with
    | (Ok a, s') => k a s'
    | (Err e, s') => (Err e, s')
    end.

Definition St_raise {S A} (e : pyexn) : St S A := fun s => (Err e, s).

#[global] Instance St_mret S : MRet (St S) := @St_ret S.
#[global] Instance St_mbind S : MBind (St S) := @St_bind S.

(** Run a computation of [M]. *)
Definition of_M {A} (m : M A) : St World A :=
  fun w =>
    match m w with
    | (Return a, w') => (Ok a, w')
    | (Raise e, w') => (Err (Builtin e), w')
    end.

(** [l1] is a prefix of [l2]. *)
Fixpoint is_prefix (l1 l2 : list string) : bool :=
  match l1, l2 with
  | [], _ => true
  | x :: l1', y :: l2' => String.eqb x y && is_prefix l1' l2'
  | _ :: _, [] => false
  end.

(** [q] is [p] or lies below [p]. *)
Definition under (p q : Path) : bool :=
  bool_decide (anchor q = anchor p) && is_prefix (parts p) (parts q).

(** [p], [p.parent], ... up to, and without, the anchor; [rparts] is
    [reversed(p.parts)]. *)
Fixpoint lineage_rev (a : Anchor) (rparts : list string) : list Path :=
  match rparts with
  | [] => []
  | _ :: rest => mkPath a (rev rparts) :: lineage_rev a rest
  end.

Definition lineage (p : Path) : list Path := lineage_rev (anchor p) (rev (parts p)).

(** Every entry sits in a directory. *)
Definition well_formed (fs : FS) : Prop :=
  forall q n, fs !! q = Some n -> Fs.is_dir fs (PurePath.parent q) = true.

Module Tree.

(** The entries that are neither [p] nor below it. *)
Definition without (fs : FS) (p : Path) : FS :=
  filter (fun kv => under p kv.1 = false) fs.

(** [shutil.rmtree(p)]: the tree goes, children first; the anchor itself
    cannot be removed, which is found out last. *)
Definition rmtree (p : Path) : St World unit :=
  fun w =>
    match Fs.stat (disk w) p with
    | None => (Err (Builtin FileNotFoundError), w)
    | Some (File _) => (Err (Builtin NotADirectoryError), w)
    | Some Dir =>
        let w' := mkWorld (DIG w) (without (disk w) p) (cwd w) in
        match parts p with
        | [] => (Err OSError, w')
        | _ => (Ok tt, w')
        end
    end.

(** [p.unlink()]. *)
Definition unlink (p : Path) : St World unit :=
  fun w =>
    match Fs.stat (disk w) p with
    | None => (Err (Builtin FileNotFoundError), w)
    | Some Dir => (Err IsADirectoryError, w)
    | Some (File _) => (Ok tt, mkWorld (DIG w) (delete p (disk w)) (cwd w))
    end.

End Tree.

(** [delete_dir(dir_path)]. *)
Definition delete_dir (dir_path : Path) : St World unit :=
  fun w => if Fs.is_dir (disk w) dir_path then Tree.rmtree dir_path w else (Ok tt, w).

(** [if_found_unlink(file_path)]. *)
Definition if_found_unlink (file_path : Path) : St World unit :=
  fun w => if Fs.is_file (disk w) file_path then Tree.unlink file_path w else (Ok tt, w).

(** *** YAML documents *)

(** What the WatchCode dictionary holds: booleans, strings, lists of
    strings and nested dictionaries, whose keys keep their order. *)
#[local] Unset Elimination Schemes.
Inductive Yaml :=
| YBool (b : bool)
| YStr (s : string)
| YSeq (items : list string)
| YMap (entries : list (string * Yaml)).
#[local] Set Elimination Schemes.

Module Dict.

Fixpoint get {A} (k : string) (kv : list (string * A)) : option A :=
  match kv with
  | [] => None
  | (k', v) :: rest => if String.eqb k k' then Some v else get k rest
  end.

(** [d[k] = v]: an existing key keeps its place, a new one goes last. *)
Fixpoint set {A} (k : string) (v : A) (kv : list (string * A)) : list (string * A) :=
  match kv with
  | [] => [(k, v)]
  | (k', v') :: rest =>
      if String.eqb k k' then (k, v) :: rest else (k', v') :: set k v rest
  end.

(** [y[k]] for a string [k]. *)
Definition subscript (y : Yaml) (k : string) : pyexn + Yaml :=
  match y with
  | YMap kv =>
      match get k kv with
      | Some v => inr v
      | None => inl (Builtin (KeyError k))
      end
  | _ => inl TypeError
  end.

(** [y[k] = v]. *)
Definition assign_item (y : Yaml) (k : string) (v : Yaml) : pyexn + Yaml :=
  match y with
  | YMap kv => inr (YMap (set k v kv))
  | _ => inl TypeError
  end.

(** [y.extend(values)]: only a list has the method. *)
Definition extend (y : Yaml) (values : list string) : pyexn + list string :=
  match y with
  | YSeq items => inr (items ++ values)
  | _ => inl (Builtin (AttributeError "extend"))
  end.

(** [[*set(items)]]: each element once, in an order that Python leaves
    open and that [elements] stands for. *)
Definition unique (items : list string) : list string :=
  elements (list_to_set items : gset string).

End Dict.

Definition _WATCHCODE_TEMPLATE : Yaml :=
  YMap
    [ ("filesets",
       YMap [ ("default",
               YMap [ ("include", YSeq [".watchcode.yaml"]);
                      ("exclude", YSeq [".watchcode.log"; "*.pyc"; "__pycache__"]);
                      ("exclude_gitignore", YBool true);
                      ("match_mode", YStr "gitlike") ]) ]);
      ("tasks",
       YMap [ ("default",
               YMap [ ("commands", YSeq []);
                      ("fileset", YStr "default");
                      ("queue_events", YBool false);
                      ("clear_screen", YBool true) ]) ]);
      ("notifications", YBool false);
      ("sound", YBool false);
      ("log", YBool false);
      ("default_task", YStr "default") ].

(** The process with the module-level dictionary, which every instance
    that is built without [dict_watchcode] shares, and with the document
    last dumped to each path. *)
Record Proc := mkProc {
  world : World;
  template : Yaml;
  dumped : gmap Path Yaml
}.

(** The process when the module has just been imported. *)
Definition Proc_start (w : World) : Proc := mkProc w _WATCHCODE_TEMPLATE ∅.

(** The dictionary an instance points to: the shared module-level one (the
    default of the attribute, which is not copied), or one handed in. *)
Inductive DictRef :=
| Shared
| Own (d : Yaml).

Record _WatchCodeYAML := mkWatchCode {
  commands : list string;
  include : list string;
  exclude : list string;
  dict_watchcode : DictRef;
  path_wc : option Path
}.

Definition St_lift {S A} (r : pyexn + A) : St S A :=
  match r with inl e => St_raise e | inr a => St_ret a end.

(** The dictionary [self.dict_watchcode] denotes in state [s]. *)
Definition dict_of (self : _WatchCodeYAML) (s : Proc) : Yaml :=
  match dict_watchcode self with
  | Shared => template s
  | Own d => d
  end.

(** [self.dict_watchcode], read. *)
Definition read_dict (self : _WatchCodeYAML) : St Proc Yaml :=
  fun s => (Ok (dict_of self s), s).

(** The dictionary after a mutation in place: seen through the module for
    the shared one, through the instance otherwise. *)
Definition store_dict (self : _WatchCodeYAML) (d : Yaml) : St Proc _WatchCodeYAML :=
  fun s =>
    match dict_watchcode self with
    | Shared => (Ok self, mkProc (world s) d (dumped s))
    | Own _ =>
        (Ok (mkWatchCode (commands self) (include self) (exclude self) (Own d)
               (path_wc self)), s)
    end.

(** [_merge_nested_setting(key, task_name, sub_key, values)]. The
    assignment goes into the innermost dictionary, which the outer ones
    hold; they are rebuilt around it. *)
Definition _merge_nested_setting (self : _WatchCodeYAML)
    (key task_name sub_key : string) (values : list string) : St Proc _WatchCodeYAML :=
  d ← read_dict self;
  by_key ← St_lift (Dict.subscript d key);
  by_task ← St_lift (Dict.subscript by_key task_name);
  _values ← St_lift (Dict.subscript by_task sub_key);
  extended ← St_lift (Dict.extend _values values);
  by_task' ← St_lift (Dict.assign_item by_task sub_key (YSeq (Dict.unique extended)));
  by_key' ← St_lift (Dict.assign_item by_key task_name by_task');
  d' ← St_lift (Dict.assign_item d key by_key');
  store_dict self d'.

(** [merge_settings()]. *)
Definition merge_settings (self : _WatchCodeYAML) : St Proc _WatchCodeYAML :=
  self ← _merge_nested_setting self "filesets" "default" "include" (include self);
  self ← _merge_nested_setting self "filesets" "default" "exclude" (exclude self);
  _merge_nested_setting self "tasks" "default" "commands" (commands self).

(** [_WatchCodeYAML(commands=..., include=..., ...)]: the attributes are
    set, then [__attrs_post_init__] merges. *)
Definition _WatchCodeYAML_init (commands include exclude : list string)
    (dict_watchcode : DictRef) (path_wc : option Path) : St Proc _WatchCodeYAML :=
  merge_settings (mkWatchCode commands include exclude dict_watchcode path_wc).

(** [yaml.dump(doc, path)]: the file is opened for writing. *)
Definition yaml_dump (doc : Yaml) (path : Path) : St Proc unit :=
  fun s =>
    let w := world s in
    match Fs.stat (disk w) path with
    | Some Dir => (Err IsADirectoryError, s)
    | _ =>
        match Fs.stat (disk w) (PurePath.parent path) with
        | None => (Err (Builtin FileNotFoundError), s)
        | Some (File _) => (Err (Builtin NotADirectoryError), s)
        | Some Dir =>
            (Ok tt,
             mkProc (mkWorld (DIG w) (<[path := File None]> (disk w)) (cwd w))
               (template s) (<[path := doc]> (dumped s)))
        end
    end.

(** [write()]. *)
Definition write (self : _WatchCodeYAML) : St Proc _WatchCodeYAML :=
  fun s =>
    let path_wc' :=
      match path_wc self with
      | None => source_path (DIG (world s))
      | Some p => Some p
      end in
    let self' := mkWatchCode (commands self) (include self) (exclude self)
                   (dict_watchcode self) path_wc' in
    match path_wc' with
    | None => (Err TypeError, s)
    | Some dir =>
        (doc ← read_dict self';
         yaml_dump doc (dir </> ".watchcode.yaml");;
         mret self') s
    end.

(** [_create_yaml(py_path)]. *)
Definition _create_yaml (py_path : string) : St Proc unit :=
  wc_yaml ← _WatchCodeYAML_init ["poetry run python " +:+ py_path] [py_path] []
              Shared None;
  write wc_yaml;;
  mret tt.

(** The list at [d[key][task_name][sub_key]], when there is one. *)
Definition setting (d : Yaml) (key task_name sub_key : string) : option (list string) :=
  match Dict.subscript d key with
  | inr by_key =>
      match Dict.subscript by_key task_name with
      | inr by_task =>
          match Dict.subscript by_task sub_key with
          | inr (YSeq items) => Some items
          | _ => None
          end
      | inl _ => None
      end
  | inl _ => None
  end.

(** The three settings that [merge_settings] merges into are lists. *)
Definition well_shaped (d : Yaml) : Prop :=
  is_Some (setting d "filesets" "default" "include") /\
  is_Some (setting d "filesets" "default" "exclude") /\
  is_Some (setting d "tasks" "default" "commands").

(** ** More sample projects *)

Module Sample2.


(** The process in which [set_paths] has returned on [Sample.proj]. *)
Definition ready : Proc := Proc_start Sample.good_after.

(** The process in which [set_paths] was never called. *)
Definition fresh : Proc := Proc_start Sample.good.

End Sample2.

(** * Properties *)

(** ** Strings and paths *)

Section PathFacts.

Lemma split_slash_nonempty s : Str.split_slash s <> [].
Proof.
  induction s as [|c s IH]; simpl; [discriminate|].
  destruct (Ascii.eqb c Str.slash); [discriminate|].
  destruct (Str.split_slash s); [contradiction|discriminate].
Qed.

(** Splitting distributes over a separating slash. *)
Lemma split_slash_app s t :
  Str.split_slash (s +:+ String Str.slash t) = Str.split_slash s ++ Str.split_slash t.
Proof.
  induction s as [|c s IH]; simpl.
  - reflexivity.
  - rewrite IH. destruct (Ascii.eqb c Str.slash); [reflexivity|].
    pose proof (split_slash_nonempty s) as Hne.
    destruct (Str.split_slash s); [contradiction|reflexivity].
Qed.

Lemma leading_slashes_app c s t :
  Ascii.eqb c Str.slash = false ->
  Str.leading_slashes (String c s +:+ t) = 0.
Proof. intros H. simpl. rewrite H. reflexivity. Qed.

Lemma leading_slashes_0 s :
  s <> EmptyString -> Str.leading_slashes s = 0 ->
  exists c s', s = String c s' /\ Ascii.eqb c Str.slash = false.
Proof.
  destruct s as [|c s']; [contradiction|]. intros _. simpl.
  destruct (Ascii.eqb c Str.slash) eqn:E; [discriminate|eauto].
Qed.

(** A relative name joins as its components. *)
Lemma joinpath_rel p s :
  PurePath.parse_anchor s = Rel ->
  p </> s = mkPath (anchor p) (parts p ++ PurePath.parse_parts s).
Proof. intros H. unfold PurePath.joinpath. simpl. rewrite H. reflexivity. Qed.

Lemma name_snoc a ws w : PurePath.name (mkPath a (ws ++ [w])) = w.
Proof. unfold PurePath.name. simpl. apply last_last. Qed.

Lemma parent_snoc a ws w : PurePath.parent (mkPath a (ws ++ [w])) = mkPath a ws.
Proof. unfold PurePath.parent. simpl. rewrite removelast_last. reflexivity. Qed.

(** [p / (n + '/0EX')] against [p / n / '0EX']. *)
Lemma joinpath_nested p n :
  n <> EmptyString -> Str.leading_slashes n = 0 ->
  p </> (n +:+ "/0EX") = p </> n </> "0EX".
Proof.
  intros Hne H0.
  destruct (leading_slashes_0 n Hne H0) as (c & s' & -> & Hc).
  rewrite (joinpath_rel p (String c s' +:+ "/0EX")).
  2:{ unfold PurePath.parse_anchor. rewrite leading_slashes_app by exact Hc. reflexivity. }
  rewrite (joinpath_rel p (String c s')).
  2:{ unfold PurePath.parse_anchor. simpl. rewrite Hc. reflexivity. }
  rewrite joinpath_rel by reflexivity. simpl.
  unfold PurePath.parse_parts.
  change "/0EX" with (String Str.slash "0EX").
  rewrite split_slash_app, List.filter_app, <- app_assoc. reflexivity.
Qed.

End PathFacts.

(** ** [mkdir] *)

Section MkdirFacts.

Implicit Types (fs : FS) (p q : Path).

Lemma extends_refl fs : extends_with_dirs fs fs.
Proof. intros q. left. reflexivity. Qed.

Lemma extends_trans fs1 fs2 fs3 :
  extends_with_dirs fs1 fs2 -> extends_with_dirs fs2 fs3 -> extends_with_dirs fs1 fs3.
Proof.
  intros H12 H23 q. destruct (H12 q) as [E|[E1 E2]], (H23 q) as [F|[F1 F2]].
  - left. congruence.
  - right. split; congruence.
  - right. split; congruence.
  - congruence.
Qed.

Lemma stat_None fs p : Fs.stat fs p = None -> fs !! p = None /\ parts p <> [].
Proof. unfold Fs.stat. destruct (parts p); [discriminate|]. intros H. split; [exact H|discriminate]. Qed.

Lemma os_mkdir_ok fs p fs' :
  Fs.os_mkdir fs p = inr fs' ->
  extends_with_dirs fs fs' /\ Fs.is_dir fs' p = true.
Proof.
  unfold Fs.os_mkdir. destruct (Fs.stat fs p) eqn:Hp; [discriminate|].
  destruct (Fs.stat fs (PurePath.parent p)) as [[|?]|]; try discriminate.
  intros [= <-]. apply stat_None in Hp as [Hp Hne]. split.
  - intros q. destruct (decide (p = q)) as [->|Hpq].
    + right. split; [exact Hp|apply lookup_insert_eq].
    + left. apply lookup_insert_ne. exact Hpq.
  - unfold Fs.is_dir, Fs.stat. destruct (parts p); [reflexivity|].
    rewrite lookup_insert_eq. reflexivity.
Qed.

Lemma mkdir_exist_ok_ok fs p fs' :
  Fs.mkdir_exist_ok fs p = inr fs' ->
  extends_with_dirs fs fs' /\ Fs.is_dir fs' p = true.
Proof.
  unfold Fs.mkdir_exist_ok. destruct (Fs.os_mkdir fs p) eqn:Hm.
  - destruct (Fs.is_dir fs p) eqn:Hd; [|discriminate].
    intros [= <-]. split; [apply extends_refl|exact Hd].
  - intros [= <-]. apply os_mkdir_ok. exact Hm.
Qed.

Lemma mkdir_parents_ok a rparts : forall fs fs',
  Fs.mkdir_parents a rparts fs = inr fs' ->
  extends_with_dirs fs fs' /\ Fs.is_dir fs' (mkPath a (rev rparts)) = true.
Proof.
  induction rparts as [|w rest IH]; intros fs fs'; cbn [Fs.mkdir_parents].
  - destruct (Fs.os_mkdir fs _) as [e|fs1] eqn:Hm.
    + destruct e; try discriminate;
        (destruct (Fs.is_dir fs _) eqn:Hd; [|discriminate]);
        intros [= <-]; (split; [apply extends_refl|exact Hd]).
    + intros [= <-]. apply os_mkdir_ok. exact Hm.
  - destruct (Fs.os_mkdir fs _) as [e|fs1] eqn:Hm.
    + destruct e;
        try (destruct (Fs.is_dir fs _) eqn:Hd; [|discriminate];
             intros [= <-]; (split; [apply extends_refl|exact Hd])).
      destruct (Fs.mkdir_parents a rest fs) as [e|fs1] eqn:Hrec; [discriminate|].
      intros Hlast. apply IH in Hrec as [Hext _].
      apply mkdir_exist_ok_ok in Hlast as [Hext' Hd].
      split; [eapply extends_trans; eassumption|exact Hd].
    + intros [= <-]. apply os_mkdir_ok. exact Hm.
Qed.

(** [mkdir(parents=True, exist_ok=True)], when it returns, has made [p] a
    directory and has only added directories. *)
Lemma mkdir_p_ok fs p fs' :
  Fs.mkdir_p fs p = inr fs' ->
  extends_with_dirs fs fs' /\ Fs.is_dir fs' p = true.
Proof.
  unfold Fs.mkdir_p. intros H. apply mkdir_parents_ok in H.
  rewrite rev_involutive in H. destruct p. exact H.
Qed.

Lemma os_mkdir_error fs p e : Fs.os_mkdir fs p = inl e -> os_error e.
Proof.
  unfold Fs.os_mkdir, os_error. destruct (Fs.stat fs p).
  - intros [= <-]. auto.
  - destruct (Fs.stat fs (PurePath.parent p)) as [[|?]|]; intros [= <-]; auto.
Qed.

Lemma mkdir_exist_ok_error fs p e : Fs.mkdir_exist_ok fs p = inl e -> os_error e.
Proof.
  unfold Fs.mkdir_exist_ok. destruct (Fs.os_mkdir fs p) as [e0|] eqn:Hm; [|discriminate].
  destruct (Fs.is_dir fs p); [discriminate|]. intros [= <-].
  eapply os_mkdir_error. exact Hm.
Qed.

Lemma mkdir_parents_error a rparts : forall fs e,
  Fs.mkdir_parents a rparts fs = inl e -> os_error e.
Proof.
  induction rparts as [|w rest IH]; intros fs e; cbn [Fs.mkdir_parents];
    destruct (Fs.os_mkdir fs _) as [e0|fs1] eqn:Hm; try discriminate;
    pose proof (os_mkdir_error _ _ _ Hm) as Hos.
  - destruct e0; try (destruct (Fs.is_dir fs _); [discriminate|]);
      intros [= <-]; exact Hos.
  - destruct e0; try (destruct (Fs.is_dir fs _); [discriminate|]);
      try (intros [= <-]; exact Hos).
    destruct (Fs.mkdir_parents a rest fs) as [e1|fs1] eqn:Hrec.
    + intros [= <-]. eapply IH. exact Hrec.
    + apply mkdir_exist_ok_error.
Qed.

(** [mkdir] raises nothing but an [OSError]. *)
Lemma mkdir_p_error fs p e : Fs.mkdir_p fs p = inl e -> os_error e.
Proof. apply mkdir_parents_error. Qed.

Lemma os_error_not_runtime msg : ~ os_error (RuntimeError msg).
Proof. intros [H|[H|H]]; discriminate H. Qed.

Lemma load_poetry_error fs p e msg : Fs.load_poetry fs p = inl e -> e <> RuntimeError msg.
Proof.
  unfold Fs.load_poetry. destruct (Fs.stat fs p) as [[|[t|]]|];
    intros [= <-]; discriminate.
Qed.

Lemma extends_stat_file fs fs' q x :
  extends_with_dirs fs fs' -> Fs.stat fs q = Some (File x) -> Fs.stat fs' q = Some (File x).
Proof.
  unfold Fs.stat. intros H. destruct (parts q); [discriminate|].
  destruct (H q) as [E|[E _]]; rewrite ?E; congruence.
Qed.


Lemma extends_load_poetry fs fs' q t :
  extends_with_dirs fs fs' -> Fs.load_poetry fs q = inr t -> Fs.load_poetry fs' q = inr t.
Proof.
  unfold Fs.load_poetry. intros H.
  destruct (Fs.stat fs q) as [[|[t0|]]|] eqn:Hq; try discriminate.
  rewrite (extends_stat_file _ _ _ _ H Hq). trivial.
Qed.


End MkdirFacts.

(** ** Running [set_paths] *)

Ltac unfold_monad :=
  cbv beta iota zeta delta
    [set_paths mbind M_bind bind mret M_ret ret raise assign ask ensure_dir
     Path_cwd getitem lift DIG disk cwd].

(** The straight-line run of [set_paths], branch by branch. *)
Lemma set_paths_run w pn sp d :
  let root := match sp with None => cwd w | Some p => p end in
  let tests := root </> "tests" in
  let docs := match d with None => root </> "docs" | Some x => x end in
  let toml := root </> "pyproject.toml" in
  let examples := root </> "tests/examples" in
  let g1 := set_template_dir (Some (docs </> "templates"))
              (set_doc_dir (Some docs)
                 (set_test_path (Some tests)
                    (set_source_path (Some root) (DIG w)))) in
  set_paths pn sp d w =
  match Fs.mkdir_p (disk w) (docs </> "templates") with
  | inl e => (Raise e, mkWorld g1 (disk w) (cwd w))
  | inr fs =>
      let g2 := set_toml_path (Some toml)
                  (set_flake8_path (Some (root </> ".flake8"))
                     (set_test_report_path (Some (docs </> "test_report.html"))
                        (set_coverage_path (Some (docs </> "cov_html/index.html")) g1))) in
      if Fs.is_file fs toml then
        match Fs.load_poetry fs toml with
        | inl e => (Raise e, mkWorld g2 fs (cwd w))
        | inr t =>
            match t !! "version" with
            | None => (Raise (KeyError "version"), mkWorld g2 fs (cwd w))
            | Some v =>
                let g3 := set_pkg_version (Some v) g2 in
                match t !! "name" with
                | None => (Raise (KeyError "name"), mkWorld g3 fs (cwd w))
                | Some n =>
                    let g4 := set_pkg_name (Some n) g3 in
                    if Str.contains Str.dash n
                    then (Raise (RuntimeError (dash_msg n toml)), mkWorld g4 fs (cwd w))
                    else
                      let g5 := set_tmp_examples_dir (Some (root </> (n +:+ "/0EX")))
                                  (set_src_examples_dir (Some examples) g4) in
                      let g6 := if Fs.is_dir fs examples then g5
                                else set_src_examples_dir None g5 in
                      let candidates :=
                        map (fun subdir => root </> subdir) (n :: external_doc_dirs)
                          ++ ([tests] ++ Fs.glob_py fs root) in
                      (Return tt,
                       mkWorld
                         (set_lint_paths
                            (LintSet (list_to_set (List.filter (Fs.exists_ fs) candidates)))
                            (set_lint_paths (LintList candidates) g6))
                         fs (cwd w))
                end
            end
        end
      else (Raise (RuntimeError (missing_toml_msg toml root)), mkWorld g2 fs (cwd w))
  end.
Proof.
  destruct w as [g fs0 here]. unfold_monad.
  destruct (Fs.mkdir_p fs0 _) as [e|fs]; [reflexivity|].
  destruct (Fs.is_file fs _); [|reflexivity]. cbn [negb].
  destruct (Fs.load_poetry fs _) as [e|t]; [reflexivity|].
  destruct (t !! "version") as [v|]; [|reflexivity].
  destruct (t !! "name") as [n|]; [|reflexivity].
  destruct (Str.contains Str.dash n); [reflexivity|].
  destruct (Fs.is_dir fs _); reflexivity.
Qed.

(** A run is the pair of its result and its final state. *)
Lemma run_eq {A} (m : M A) w r : fst (m w) = r -> m w = (r, snd (m w)).
Proof. destruct (m w) as [r0 w']. simpl. intros ->. reflexivity. Qed.


(** Replace a call of [set_paths] in [H] by its run and split on the
    branches taken. *)
Ltac run_set_paths H :=
  rewrite set_paths_run in H; cbv zeta in H;
  repeat match type of H with
         | context [match Fs.mkdir_p ?fs ?p with _ => _ end] =>
             let E := fresh "Hmkdir" in destruct (Fs.mkdir_p fs p) eqn:E
         | context [if Fs.is_file ?fs ?p then _ else _] =>
             let E := fresh "Hfile" in destruct (Fs.is_file fs p) eqn:E
         | context [match Fs.load_poetry ?fs ?p with _ => _ end] =>
             let E := fresh "Hload" in destruct (Fs.load_poetry fs p) eqn:E
         | context [match ?t !! "version" with _ => _ end] =>
             let E := fresh "Hversion" in destruct (t !! "version") eqn:E
         | context [match ?t !! "name" with _ => _ end] =>
             let E := fresh "Hname" in destruct (t !! "name") eqn:E
         | context [if Str.contains Str.dash ?n then _ else _] =>
             let E := fresh "Hdash" in destruct (Str.contains Str.dash n) eqn:E
         | context [if Fs.is_dir ?fs ?p then _ else _] =>
             let E := fresh "Hexamples" in destruct (Fs.is_dir fs p) eqn:E
         end;
  try discriminate H.


(** ** Sample runs *)

Example good_returns :
  fst (set_paths None (Some Sample.proj) None Sample.good) = Return tt.
Proof. vm_compute. reflexivity. Qed.

Example good_lint_paths :
  match lint_paths (DIG Sample.good_after) with
  | LintSet found =>
      bool_decide (found = {[ Sample.proj </> "my_pkg"; Sample.proj </> "tests";
                              Sample.proj </> "dodo.py" ]})
  | LintList _ => false
  end = true.
Proof. vm_compute. reflexivity. Qed.

Example good_made_templates :
  Fs.is_dir (disk Sample.good) (Sample.proj </> "docs/templates") = false /\
  Fs.is_dir (disk Sample.good_after) (Sample.proj </> "docs/templates") = true.
Proof. split; vm_compute; reflexivity. Qed.

Example join_absolute : Sample.proj </> "/0EX" = mkPath Root ["0EX"].
Proof. reflexivity. Qed.

Example join_nested :
  Sample.proj </> "cov_html/index.html" = mkPath Root ["work"; "proj"; "cov_html"; "index.html"].
Proof. reflexivity. Qed.

Example str_normalised :
  PurePath.to_string (PurePath.of_string "/work//proj/./a/") = "/work/proj/a".
Proof. reflexivity. Qed.

(** ** The claims *)







(** C3. After [set_paths(source_path=p, doc_dir=d)] returns, the resolved
    locations are functions of [p] and of [d], which stands for [p / 'docs']
    when it is not passed. *)
Theorem set_paths_locations w pn p d w' :
  set_paths pn (Some p) d w = (Return tt, w') ->
  test_path (DIG w') = Some (p </> "tests") /\
  doc_dir (DIG w') = Some (default (p </> "docs") d) /\
  template_dir (DIG w') = Some (default (p </> "docs") d </> "templates") /\
  coverage_path (DIG w') = Some (default (p </> "docs") d </> "cov_html/index.html") /\
  test_report_path (DIG w') = Some (default (p </> "docs") d </> "test_report.html") /\
  flake8_path (DIG w') = Some (p </> ".flake8") /\
  toml_path (DIG w') = Some (p </> "pyproject.toml").
Proof.
  intros H. run_set_paths H.
  all: injection H as <-; destruct d; repeat split; reflexivity.
Qed.

Lemma set_paths_locations_witness :
  coverage_path (DIG Sample.good_after)
    = Some (PurePath.of_string "/work/proj/docs/cov_html/index.html").
Proof.
  destruct (set_paths_locations Sample.good None Sample.proj None Sample.good_after)
    as (_ & _ & _ & H & _); [apply (run_eq (set_paths None (Some Sample.proj) None) Sample.good (Return tt)); vm_compute; reflexivity|].
  rewrite H. vm_compute. reflexivity.
Defined.

(** C4. When the manifest is there and [set_paths] returns, [pkg_name] and
    [pkg_version] are the [name] and the [version] of its [tool.poetry]
    table. *)
Theorem set_paths_reads_manifest w pn p d t w' :
  Fs.load_poetry (disk w) (p </> "pyproject.toml") = inr t ->
  set_paths pn (Some p) d w = (Return tt, w') ->
  (exists n, t !! "name" = Some n /\ pkg_name (DIG w') = Some n) /\
  (exists v, t !! "version" = Some v /\ pkg_version (DIG w') = Some v).
Proof.
  intros Hload H. run_set_paths H.
  all: injection H as <-.
  all: destruct (mkdir_p_ok _ _ _ Hmkdir) as [Hext _].
  all: rewrite (extends_load_poetry _ _ _ _ Hext Hload) in Hload0.
  all: injection Hload0 as <-.
  all: split; eexists; (split; [eassumption|reflexivity]).
Qed.

Lemma set_paths_reads_manifest_witness :
  pkg_name (DIG Sample.good_after) = Some "my_pkg" /\
  pkg_version (DIG Sample.good_after) = Some "0.1.0".
Proof.
  destruct (set_paths_reads_manifest Sample.good None Sample.proj None
              (Sample.manifest "my_pkg") Sample.good_after)
    as [(n & Hn & Hn') (v & Hv & Hv')];
    [vm_compute; reflexivity|apply (run_eq (set_paths None (Some Sample.proj) None) Sample.good (Return tt)); vm_compute; reflexivity|].
  rewrite Hn', Hv', <- Hn, <- Hv. split; vm_compute; reflexivity.
Defined.

(** C5. After [set_paths] returns on root [p], [lint_paths] is the set of
    the paths among [p / pkg_name], [p / 'examples'], [p / 'scripts'],
    [p / 'tests'], [test_path] and the [*.py] entries directly in [p] that
    exist; a set holds no element twice. *)
Theorem set_paths_lint_paths w pn p d w' :
  set_paths pn (Some p) d w = (Return tt, w') ->
  exists name tests (found : gset Path),
    pkg_name (DIG w') = Some name /\
    test_path (DIG w') = Some tests /\
    lint_paths (DIG w') = LintSet found /\
    (forall x, x ∈ found <->
       In x ([p </> name; p </> "examples"; p </> "scripts"; p </> "tests"; tests]
             ++ Fs.glob_py (disk w') p)
       /\ Fs.exists_ (disk w') x = true) /\
    NoDup (elements found).
Proof.
  intros H. run_set_paths H.
  all: apply (f_equal snd) in H; cbv beta iota delta [snd] in H; subst w'.
  all: eexists _, _, _.
  all: split; [reflexivity|]; split; [reflexivity|]; split; [reflexivity|].
  all: split; [|apply NoDup_elements].
  all: intros x; rewrite elem_of_list_to_set, list_elem_of_In, filter_In.
  all: reflexivity.
Qed.

Lemma set_paths_lint_paths_witness :
  exists found : gset Path,
    lint_paths (DIG Sample.good_after) = LintSet found /\
    (Sample.proj </> "dodo.py" ∈ found) /\
    (Sample.proj </> "examples" ∉ found).
Proof.
  destruct (set_paths_lint_paths Sample.good None Sample.proj None Sample.good_after)
    as (name & tests & found & Hname & Htests & Hlint & Hmem & _);
    [apply (run_eq (set_paths None (Some Sample.proj) None) Sample.good (Return tt)); vm_compute; reflexivity|].
  exists found. split; [exact Hlint|]. split.
  - apply Hmem. split; vm_compute; auto 10.
  - intros Hin. apply Hmem in Hin as [_ Hex]. vm_compute in Hex. discriminate Hex.
Defined.

(** C6, as amended. [set_paths] resolves no tag-file location: after it
    returns, no attribute that holds a path has a name that speaks of a
    tag, and the attributes that hold a path are [dash_dev_dir],
    [flake8_path], [path_gitchangelog], [source_path], [test_path],
    [toml_path], [doc_dir], [coverage_path], [test_report_path],
    [src_examples_dir] when [tests/examples] is a directory,
    [tmp_examples_dir] and [template_dir]. *)
Theorem set_paths_no_tag_file here w pn p d w' :
  set_paths pn (Some p) d w = (Return tt, w') ->
  tag_file_locations here (DIG w') = [] /\
  locations here (DIG w') =
    ["dash_dev_dir"; "flake8_path"; "path_gitchangelog"; "source_path"; "test_path";
     "toml_path"; "doc_dir"; "coverage_path"; "test_report_path"]
    ++ (if Fs.is_dir (disk w') (p </> "tests/examples") then ["src_examples_dir"] else [])
    ++ ["tmp_examples_dir"; "template_dir"].
Proof.
  intros H. run_set_paths H.
  all: apply (f_equal snd) in H; cbv beta iota delta [snd] in H; subst w'.
  all: cbv beta iota delta [disk]; rewrite Hexamples.
  all: split; reflexivity.
Qed.

Lemma set_paths_no_tag_file_witness :
  tag_file_locations Sample.site (DIG Sample.good_after) = [].
Proof.
  apply (set_paths_no_tag_file Sample.site Sample.good None Sample.proj None
           Sample.good_after).
  apply (run_eq (set_paths None (Some Sample.proj) None) Sample.good (Return tt)).
  vm_compute. reflexivity.
Defined.

(** C6, as stated, fails: a call that returns leaves no attribute for a
    tag file in the globals object. *)
Lemma set_paths_tag_file_absent :
  fst (set_paths None (Some Sample.proj) None Sample.good) = Return tt /\
  tag_file_locations Sample.site (DIG Sample.good_after) = [] /\
  List.filter (fun kv => Str.mentions "tag" (fst kv))
    (vars Sample.site (DIG Sample.good_after)) = [].
Proof. repeat split; vm_compute; reflexivity. Qed.




(** C9. A RuntimeError leaves the instance half updated: the eight
    locations hold their new values and [doc_dir / 'templates'] is a
    directory on disk; after the missing-file error [pkg_name] and
    [pkg_version] are what they were, after the dash error they hold the
    name and the version read from the manifest. *)
Theorem set_paths_not_atomic w pn sp d msg w' :
  set_paths pn sp d w = (Raise (RuntimeError msg), w') ->
  let root := default (cwd w) sp in
  let docs := default (root </> "docs") d in
  (source_path (DIG w') = Some root /\
   test_path (DIG w') = Some (root </> "tests") /\
   doc_dir (DIG w') = Some docs /\
   template_dir (DIG w') = Some (docs </> "templates") /\
   coverage_path (DIG w') = Some (docs </> "cov_html/index.html") /\
   test_report_path (DIG w') = Some (docs </> "test_report.html") /\
   flake8_path (DIG w') = Some (root </> ".flake8") /\
   toml_path (DIG w') = Some (root </> "pyproject.toml")) /\
  Fs.is_dir (disk w') (docs </> "templates") = true /\
  ((Fs.is_file (disk w') (root </> "pyproject.toml") = false /\
    msg = missing_toml_msg (root </> "pyproject.toml") root /\
    pkg_name (DIG w') = pkg_name (DIG w) /\
    pkg_version (DIG w') = pkg_version (DIG w))
   \/
   (exists t name version,
      Fs.load_poetry (disk w') (root </> "pyproject.toml") = inr t /\
      t !! "name" = Some name /\ t !! "version" = Some version /\
      Str.contains Str.dash name = true /\
      msg = dash_msg name (root </> "pyproject.toml") /\
      pkg_name (DIG w') = Some name /\
      pkg_version (DIG w') = Some version)).
Proof.
  intros H root docs. run_set_paths H.
  all: pose proof (f_equal fst H) as Hm; pose proof (f_equal snd H) as Hw.
  all: cbv beta iota delta [fst snd] in Hm, Hw; injection Hm as Hm; clear H.
  - (* [ensure_dir] raised *)
    subst e. apply mkdir_p_error in Hmkdir.
    destruct (os_error_not_runtime _ Hmkdir).
  - (* loading the manifest raised *)
    destruct (load_poetry_error _ _ _ msg Hload). exact Hm.
  - (* the dash error *)
    subst msg w'. destruct (mkdir_p_ok _ _ _ Hmkdir) as [_ Hdir].
    subst root docs. destruct sp, d; cbn [default from_option id] in *.
    all: (split; [repeat split; reflexivity|]); (split; [exact Hdir|]).
    all: right; eexists _, _, _; repeat split; eassumption || reflexivity.
  - (* the missing-file error *)
    subst msg w'. destruct (mkdir_p_ok _ _ _ Hmkdir) as [_ Hdir].
    subst root docs. destruct sp, d; cbn [default from_option id] in *.
    all: (split; [repeat split; reflexivity|]); (split; [exact Hdir|]).
    all: left; repeat split; assumption || reflexivity.
Qed.

Lemma set_paths_not_atomic_witness :
  source_path (DIG (Sample.run Sample.dashed)) = Some Sample.proj /\
  Fs.is_dir (disk (Sample.run Sample.dashed)) (Sample.proj </> "docs" </> "templates") = true /\
  pkg_name (DIG (Sample.run Sample.dashed)) = Some "my-pkg".
Proof.
  destruct (set_paths_not_atomic Sample.dashed None (Some Sample.proj) None
              "Replace dashes in name with underscores (my-pkg) in /work/proj/pyproject.toml"
              (Sample.run Sample.dashed))
    as ((Hsrc & _) & Hdir & [(Hfile & _)|(t & name & version & _ & _ & _ & _ & Hmsg & Hname & _)]).
  - apply (run_eq (set_paths None (Some Sample.proj) None) Sample.dashed).
    vm_compute. reflexivity.
  - vm_compute in Hfile. discriminate Hfile.
  - split; [exact Hsrc|]. split; [exact Hdir|].
    vm_compute. reflexivity.
Defined.

(** C10, as amended. After [set_paths] returns on root [p],
    [src_examples_dir] is [p / 'tests/examples'] when that is a directory
    and None otherwise, and [tmp_examples_dir] is [p] joined with the one
    string [pkg_name + '/0EX'], which is [p / pkg_name / '0EX'] when
    [pkg_name] is not empty and does not start with a slash. *)
Theorem set_paths_examples_dirs w pn p d w' :
  set_paths pn (Some p) d w = (Return tt, w') ->
  src_examples_dir (DIG w') =
    (if Fs.is_dir (disk w') (p </> "tests/examples")
     then Some (p </> "tests/examples") else None) /\
  exists name,
    pkg_name (DIG w') = Some name /\
    tmp_examples_dir (DIG w') = Some (p </> (name +:+ "/0EX")) /\
    (name <> EmptyString -> Str.leading_slashes name = 0 ->
     tmp_examples_dir (DIG w') = Some (p </> name </> "0EX")).
Proof.
  intros H. run_set_paths H.
  all: apply (f_equal snd) in H; cbv beta iota delta [snd] in H; subst w'.
  all: cbv beta iota delta [disk]; rewrite Hexamples.
  all: split; [reflexivity|]; eexists; split; [reflexivity|]; split; [reflexivity|].
  all: intros Hne H0; cbn [DIG tmp_examples_dir set_lint_paths set_src_examples_dir
                           set_tmp_examples_dir].
  all: rewrite joinpath_nested by assumption; reflexivity.
Qed.

Lemma set_paths_examples_dirs_witness :
  src_examples_dir (DIG Sample.good_after) = Some (Sample.proj </> "tests/examples") /\
  tmp_examples_dir (DIG Sample.good_after) = Some (Sample.proj </> "my_pkg" </> "0EX").
Proof.
  destruct (set_paths_examples_dirs Sample.good None Sample.proj None Sample.good_after)
    as (Hsrc & name & Hname & _ & Htmp).
  - apply (run_eq (set_paths None (Some Sample.proj) None) Sample.good (Return tt)).
    vm_compute. reflexivity.
  - assert (Hn : name = "my_pkg").
    { assert (E : pkg_name (DIG Sample.good_after) = Some "my_pkg")
        by (vm_compute; reflexivity).
      rewrite Hname in E. injection E as E. exact E. }
    subst name. split.
    + rewrite Hsrc. vm_compute. reflexivity.
    + apply Htmp; [discriminate|reflexivity].
Defined.

(** C10, as stated, fails for an empty package name: [p / '/0EX'] is the
    absolute path [/0EX], not [p / pkg_name / '0EX']. *)
Lemma set_paths_tmp_examples_absolute :
  fst (set_paths None (Some Sample.proj) None Sample.nameless) = Return tt /\
  pkg_name (DIG (Sample.run Sample.nameless)) = Some EmptyString /\
  tmp_examples_dir (DIG (Sample.run Sample.nameless)) = Some (mkPath Root ["0EX"]) /\
  Sample.proj </> EmptyString </> "0EX" = mkPath Root ["work"; "proj"; "0EX"] /\
  tmp_examples_dir (DIG (Sample.run Sample.nameless))
    <> Some (Sample.proj </> EmptyString </> "0EX").
Proof.
  repeat split; try (vm_compute; reflexivity).
  vm_compute. discriminate.
Qed.

(** * Further properties *)

(** ** [set_paths], beyond the claims *)


Lemma ensure_dir_run dir w :
  ensure_dir dir w =
    match Fs.mkdir_p (disk w) dir with
    | inl e => (Raise e, w)
    | inr fs' => (Return tt, mkWorld (DIG w) fs' (cwd w))
    end.
Proof. reflexivity. Qed.

(** [mkdir(parents=True, exist_ok=True)] on a directory changes nothing. *)
Lemma mkdir_p_existing fs p : Fs.is_dir fs p = true -> Fs.mkdir_p fs p = inr fs.
Proof.
  intros Hd. unfold Fs.mkdir_p.
  assert (Hp : mkPath (anchor p) (rev (rev (parts p))) = p)
    by (rewrite rev_involutive; destruct p; reflexivity).
  destruct (rev (parts p)) as [|x rest]; cbn [Fs.mkdir_parents]; rewrite Hp;
    unfold Fs.os_mkdir; unfold Fs.is_dir in Hd;
    destruct (Fs.stat fs p) as [[|?]|] eqn:Hs; try discriminate;
    unfold Fs.is_dir; rewrite Hs; reflexivity.
Qed.







(** X5. A call that returns assigns every attribute: the state it leaves
    does not depend on what the instance held before. *)
Theorem set_paths_overwrites pn sp d g1 g2 fs here w' :
  set_paths pn sp d (mkWorld g1 fs here) = (Return tt, w') ->
  set_paths pn sp d (mkWorld g2 fs here) = (Return tt, w').
Proof.
  intros H. run_set_paths H.
  all: rewrite set_paths_run; cbv zeta; cbn [DIG disk cwd] in *.
  all: rewrite Hmkdir, Hfile, Hload, Hversion, Hname, Hdash, Hexamples.
  all: rewrite <- H; reflexivity.
Qed.

Lemma set_paths_overwrites_witness :
  set_paths None (Some Sample.proj) None
    (mkWorld (DIG Sample.good_after) (disk Sample.good) Sample.home)
  = (Return tt, Sample.good_after).
Proof.
  apply (set_paths_overwrites None (Some Sample.proj) None DoItGlobals_new).
  apply (run_eq (set_paths None (Some Sample.proj) None) Sample.good (Return tt)).
  vm_compute. reflexivity.
Defined.

(** X6. [set_paths] is idempotent: after a call that returns, the same call
    returns again and changes neither the instance nor the disk. *)
Theorem set_paths_idempotent pn sp d w w' :
  set_paths pn sp d w = (Return tt, w') ->
  set_paths pn sp d w' = (Return tt, w').
Proof.
  intros H. run_set_paths H.
  all: destruct (mkdir_p_ok _ _ _ Hmkdir) as [_ Hdir].
  all: apply (f_equal snd) in H; cbv beta iota delta [snd] in H; subst w'.
  all: rewrite set_paths_run; cbv zeta; cbn [DIG disk cwd].
  all: rewrite (mkdir_p_existing _ _ Hdir), Hfile, Hload, Hversion, Hname, Hdash, Hexamples.
  all: reflexivity.
Qed.

Lemma set_paths_idempotent_witness :
  set_paths None (Some Sample.proj) None Sample.good_after = (Return tt, Sample.good_after).
Proof.
  apply (set_paths_idempotent None (Some Sample.proj) None Sample.good).
  apply (run_eq (set_paths None (Some Sample.proj) None) Sample.good (Return tt)).
  vm_compute. reflexivity.
Defined.

(** X7. Whatever its outcome, [set_paths] keeps every entry of the disk as
    it is, adds nothing but directories, and stays in the working
    directory. *)
Theorem set_paths_disk pn sp d w :
  extends_with_dirs (disk w) (disk (snd (set_paths pn sp d w))) /\
  cwd (snd (set_paths pn sp d w)) = cwd w.
Proof.
  rewrite set_paths_run. cbv zeta.
  destruct (Fs.mkdir_p _ _) as [e|fs] eqn:Hmkdir.
  - split; [apply extends_refl|reflexivity].
  - destruct (mkdir_p_ok _ _ _ Hmkdir) as [Hext _].
    destruct (Fs.is_file _ _); [|split; [exact Hext|reflexivity]].
    destruct (Fs.load_poetry _ _) as [|t]; [split; [exact Hext|reflexivity]|].
    destruct (t !! "version"); [|split; [exact Hext|reflexivity]].
    destruct (t !! "name") as [n|]; [|split; [exact Hext|reflexivity]].
    destruct (Str.contains Str.dash n); split; first [exact Hext|reflexivity].
Qed.

Lemma glob_py_exists fs p x : In x (Fs.glob_py fs p) -> Fs.exists_ fs x = true.
Proof.
  unfold Fs.glob_py. destruct (Fs.is_dir fs p); [|intros []].
  rewrite filter_In, in_map_iff. intros [([q n] & <- & Hin) Hpy].
  apply list_elem_of_In, elem_of_map_to_list in Hin.
  unfold Fs.py_child in Hpy. cbn [fst] in *.
  apply andb_prop in Hpy as [Hpy _]. apply andb_prop in Hpy as [_ Hne].
  unfold Fs.exists_, Fs.stat. destruct (parts q); [discriminate Hne|].
  rewrite Hin. reflexivity.
Qed.

(** X8. After [set_paths] returns on root [p], every entry that
    [p.glob('*.py')] yields is in [lint_paths], and so is [p / 'tests'] when
    it exists. *)
Theorem set_paths_lints_py_files w pn p d w' :
  set_paths pn (Some p) d w = (Return tt, w') ->
  exists found : gset Path,
    lint_paths (DIG w') = LintSet found /\
    (forall x, In x (Fs.glob_py (disk w') p) -> x ∈ found) /\
    (Fs.exists_ (disk w') (p </> "tests") = true -> p </> "tests" ∈ found).
Proof.
  intros H. run_set_paths H.
  all: apply (f_equal snd) in H; cbv beta iota delta [snd] in H; subst w'.
  all: eexists; split; [reflexivity|]; cbn [disk]; split.
  all: try (intros x Hx; pose proof (glob_py_exists _ _ _ Hx) as Hex).
  all: try intros Hex.
  all: rewrite elem_of_list_to_set, list_elem_of_In, filter_In.
  all: (split; [|exact Hex]).
  all: rewrite !in_app_iff; cbn [map In]; auto 10.
Qed.

Lemma set_paths_lints_py_files_witness :
  exists found : gset Path,
    lint_paths (DIG Sample.good_after) = LintSet found /\
    Sample.proj </> "dodo.py" ∈ found.
Proof.
  destruct (set_paths_lints_py_files Sample.good None Sample.proj None Sample.good_after)
    as (found & Hlint & Hpy & _).
  - apply (run_eq (set_paths None (Some Sample.proj) None) Sample.good (Return tt)).
    vm_compute. reflexivity.
  - exists found. split; [exact Hlint|]. apply Hpy. vm_compute. auto.
Defined.






(** ** [ensure_dir] *)

Section EnsureDirFacts.

Implicit Types (fs : FS) (p q : Path).

Lemma extends_is_dir fs fs' q :
  extends_with_dirs fs fs' -> Fs.is_dir fs q = true -> Fs.is_dir fs' q = true.
Proof.
  unfold Fs.is_dir, Fs.stat. intros H. destruct (parts q); [trivial|].
  destruct (H q) as [E|[E1 E2]]; [rewrite E; trivial|rewrite E1; discriminate].
Qed.

Lemma parent_rev_cons a x rest :
  PurePath.parent (mkPath a (rev (x :: rest))) = mkPath a (rev rest).
Proof. cbn [rev]. apply parent_snoc. Qed.

Lemma stat_nonempty fs a x rest :
  Fs.stat fs (mkPath a (rev (x :: rest))) = fs !! mkPath a (rev (x :: rest)).
Proof.
  unfold Fs.stat. cbn [parts rev].
  destruct (rev rest ++ [x]) eqn:E; [|reflexivity].
  destruct (rev rest); discriminate E.
Qed.

(** In a well-formed tree a directory has directories above it. *)
Lemma lineage_dirs fs a rparts :
  well_formed fs ->
  Fs.is_dir fs (mkPath a (rev rparts)) = true ->
  forall q, In q (lineage_rev a rparts) -> Fs.is_dir fs q = true.
Proof.
  intros Hwf. induction rparts as [|x rest IH]; intros Hd q; cbn [lineage_rev In].
  - intros [].
  - intros [<-|Hin]; [exact Hd|]. apply IH; [|exact Hin].
    rewrite <- (parent_rev_cons a x rest).
    unfold Fs.is_dir in Hd. rewrite stat_nonempty in Hd.
    destruct (fs !! mkPath a (rev (x :: rest))) as [n|] eqn:E; [|discriminate].
    eapply Hwf. exact E.
Qed.

Lemma is_dir_not_file fs q : Fs.is_dir fs q = true -> Fs.is_file fs q = false.
Proof. unfold Fs.is_dir, Fs.is_file. destruct (Fs.stat fs q) as [[|?]|]; congruence. Qed.

(** [os.mkdir] keeps the tree well-formed. *)
Lemma os_mkdir_well_formed fs p fs' :
  well_formed fs -> Fs.os_mkdir fs p = inr fs' -> well_formed fs'.
Proof.
  intros Hwf Hm. pose proof (os_mkdir_ok _ _ _ Hm) as [Hext _].
  unfold Fs.os_mkdir in Hm. destruct (Fs.stat fs p) eqn:Hp; [discriminate|].
  destruct (Fs.stat fs (PurePath.parent p)) as [[|?]|] eqn:Hpar; try discriminate.
  injection Hm as <-. intros q n Hq.
  destruct (decide (p = q)) as [<-|Hne].
  - apply (extends_is_dir fs); [exact Hext|]. unfold Fs.is_dir. rewrite Hpar. reflexivity.
  - rewrite lookup_insert_ne in Hq by exact Hne.
    apply (extends_is_dir fs); [exact Hext|]. eapply Hwf. exact Hq.
Qed.

(** What [mkdir(parents=True, exist_ok=True)] does in a well-formed tree:
    it fails exactly on a regular file in the lineage, and otherwise leaves
    a well-formed tree with the whole lineage made of directories. *)
Lemma mkdir_parents_well_formed a rparts : forall fs,
  well_formed fs ->
  match Fs.mkdir_parents a rparts fs with
  | inr fs' =>
      well_formed fs' /\
      (forall q, In q (lineage_rev a rparts) -> Fs.is_dir fs' q = true) /\
      (forall q, In q (lineage_rev a rparts) -> Fs.is_file fs q = false)
  | inl _ => exists q, In q (lineage_rev a rparts) /\ Fs.is_file fs q = true
  end.
Proof.
  induction rparts as [|x rest IH]; intros fs Hwf.
  - cbn. split; [exact Hwf|]. split; intros q [].
  - cbn [Fs.mkdir_parents lineage_rev]. set (p := mkPath a (rev (x :: rest))).
    assert (Hparent : PurePath.parent p = mkPath a (rev rest)) by apply parent_rev_cons.
    unfold Fs.os_mkdir. rewrite Hparent.
    destruct (Fs.stat fs p) as [n|] eqn:Hp.
    + (* [p] exists *)
      unfold Fs.is_dir at 1. rewrite Hp. destruct n as [|t].
      * split; [exact Hwf|].
        assert (Hd : Fs.is_dir fs p = true) by (unfold Fs.is_dir; rewrite Hp; reflexivity).
        pose proof (lineage_dirs fs a (x :: rest) Hwf Hd) as Hall.
        split; [exact Hall|]. intros q Hq. apply is_dir_not_file, Hall, Hq.
      * exists p. split; [left; reflexivity|].
        unfold Fs.is_file. rewrite Hp. reflexivity.
    + destruct (Fs.stat fs (mkPath a (rev rest))) as [[|t]|] eqn:Hpar.
      * (* the parent is a directory: [p] is made *)
        assert (Hm : Fs.os_mkdir fs p = inr (<[p := Dir]> fs)).
        { unfold Fs.os_mkdir. rewrite Hp, Hparent, Hpar. reflexivity. }
        pose proof (os_mkdir_well_formed _ _ _ Hwf Hm) as Hwf'.
        pose proof (os_mkdir_ok _ _ _ Hm) as [_ Hd].
        split; [exact Hwf'|]. split.
        -- apply (lineage_dirs _ a (x :: rest) Hwf' Hd).
        -- intros q [<-|Hq].
           ++ unfold Fs.is_file. rewrite Hp. reflexivity.
           ++ apply is_dir_not_file. apply (lineage_dirs fs a rest Hwf); [|exact Hq].
              unfold Fs.is_dir. rewrite Hpar. reflexivity.
      * (* the parent is a regular file *)
        unfold Fs.is_dir. rewrite Hp.
        exists (mkPath a (rev rest)). split.
        -- right. destruct rest as [|y rest']; [discriminate Hpar|left; reflexivity].
        -- unfold Fs.is_file. rewrite Hpar. reflexivity.
      * (* the parent is missing: it is made first *)
        specialize (IH fs Hwf).
        destruct (Fs.mkdir_parents a rest fs) as [e|fs1] eqn:Hrec.
        -- destruct IH as (q & Hq & Hf). exists q. split; [right; exact Hq|exact Hf].
        -- destruct IH as (Hwf1 & Hdirs & Hnofile).
           pose proof (mkdir_parents_ok _ _ _ _ Hrec) as [Hext Hdpar].
           assert (Hnofile' : forall q, p = q \/ In q (lineage_rev a rest) ->
                                        Fs.is_file fs q = false).
           { intros q [<-|Hq]; [|apply Hnofile, Hq].
             unfold Fs.is_file. rewrite Hp. reflexivity. }
           unfold Fs.mkdir_exist_ok.
           destruct (Fs.os_mkdir fs1 p) as [e|fs2] eqn:Hm.
           ++ (* [p] is there already *)
              assert (Hd : Fs.is_dir fs1 p = true).
              { unfold Fs.os_mkdir in Hm. rewrite Hparent in Hm.
                unfold Fs.is_dir in Hdpar.
                destruct (Fs.stat fs1 p) as [n|] eqn:Hp1.
                - unfold p in Hp, Hp1. rewrite stat_nonempty in Hp, Hp1.
                  destruct (Hext (mkPath a (rev (x :: rest)))) as [E|[_ E]].
                  + rewrite E, Hp in Hp1. discriminate Hp1.
                  + unfold Fs.is_dir, p. rewrite stat_nonempty, E. reflexivity.
                - destruct (Fs.stat fs1 (mkPath a (rev rest))) as [[|?]|];
                    discriminate. }
              rewrite Hd. split; [exact Hwf1|]. split; [|exact Hnofile'].
              apply (lineage_dirs _ a (x :: rest) Hwf1 Hd).
           ++ pose proof (os_mkdir_well_formed _ _ _ Hwf1 Hm) as Hwf2.
              pose proof (os_mkdir_ok _ _ _ Hm) as [_ Hd].
              split; [exact Hwf2|]. split; [|exact Hnofile'].
              apply (lineage_dirs _ a (x :: rest) Hwf2 Hd).
Qed.

Lemma mkdir_p_well_formed fs p :
  well_formed fs ->
  match Fs.mkdir_p fs p with
  | inr fs' =>
      well_formed fs' /\
      (forall q, In q (lineage p) -> Fs.is_dir fs' q = true) /\
      (forall q, In q (lineage p) -> Fs.is_file fs q = false)
  | inl _ => exists q, In q (lineage p) /\ Fs.is_file fs q = true
  end.
Proof. apply mkdir_parents_well_formed. Qed.

End EnsureDirFacts.

(** X11. When [ensure_dir] returns, [dir_path] is a directory, every entry
    the disk had is as it was, whatever is new is a directory, and neither
    the instance nor the working directory has changed. *)
Theorem ensure_dir_postcondition dir_path w w' :
  ensure_dir dir_path w = (Return tt, w') ->
  Fs.is_dir (disk w') dir_path = true /\
  extends_with_dirs (disk w) (disk w') /\
  DIG w' = DIG w /\ cwd w' = cwd w.
Proof.
  rewrite ensure_dir_run.
  destruct (Fs.mkdir_p (disk w) dir_path) as [|fs] eqn:Hm; [discriminate|].
  intros [= <-]. destruct (mkdir_p_ok _ _ _ Hm) as [Hext Hd]. auto.
Qed.

Lemma ensure_dir_postcondition_witness :
  Fs.is_dir (disk (snd (ensure_dir (Sample.proj </> "docs/api") Sample.bare)))
    (Sample.proj </> "docs/api") = true.
Proof.
  apply (ensure_dir_postcondition (Sample.proj </> "docs/api") Sample.bare).
  apply run_eq. vm_compute. reflexivity.
Defined.

(** X12. [ensure_dir] on a directory that exists returns and changes
    nothing, and so it is idempotent: once it has returned, it returns
    again and leaves the state as it is. *)
Theorem ensure_dir_idempotent dir_path w :
  (Fs.is_dir (disk w) dir_path = true -> ensure_dir dir_path w = (Return tt, w)) /\
  (forall w', ensure_dir dir_path w = (Return tt, w') ->
              ensure_dir dir_path w' = (Return tt, w')).
Proof.
  assert (Hexist : forall w0, Fs.is_dir (disk w0) dir_path = true ->
                              ensure_dir dir_path w0 = (Return tt, w0)).
  { intros w0 Hd. rewrite ensure_dir_run, (mkdir_p_existing _ _ Hd).
    destruct w0; reflexivity. }
  split; [apply Hexist|]. intros w' H. apply Hexist.
  rewrite ensure_dir_run in H.
  destruct (Fs.mkdir_p (disk w) dir_path) as [|fs] eqn:Hm; [discriminate|].
  injection H as <-. apply (mkdir_p_ok _ _ _ Hm).
Qed.

Lemma ensure_dir_idempotent_witness :
  ensure_dir (Sample.proj </> "tests") Sample.bare = (Return tt, Sample.bare).
Proof.
  apply (proj1 (ensure_dir_idempotent (Sample.proj </> "tests") Sample.bare)).
  vm_compute. reflexivity.
Defined.

(** X13. In a well-formed tree [ensure_dir] returns exactly when neither
    [dir_path] nor any directory above it is a regular file. *)
Theorem ensure_dir_returns_iff dir_path w :
  well_formed (disk w) ->
  (fst (ensure_dir dir_path w) = Return tt <->
   forall q, In q (lineage dir_path) -> Fs.is_file (disk w) q = false).
Proof.
  intros Hwf. pose proof (mkdir_p_well_formed (disk w) dir_path Hwf) as H.
  rewrite ensure_dir_run. destruct (Fs.mkdir_p (disk w) dir_path) as [e|fs].
  - destruct H as (q & Hq & Hf). split; [discriminate|].
    intros Hall. rewrite (Hall q Hq) in Hf. discriminate Hf.
  - split; [intros _; apply H|reflexivity].
Qed.

(** X14. In a well-formed tree, when [ensure_dir] returns, the tree is
    still well-formed and [dir_path] and every directory above it exist. *)
Theorem ensure_dir_well_formed dir_path w w' :
  well_formed (disk w) ->
  ensure_dir dir_path w = (Return tt, w') ->
  well_formed (disk w') /\
  forall q, In q (lineage dir_path) -> Fs.is_dir (disk w') q = true.
Proof.
  intros Hwf. pose proof (mkdir_p_well_formed (disk w) dir_path Hwf) as H.
  rewrite ensure_dir_run. destruct (Fs.mkdir_p (disk w) dir_path) as [e|fs];
    [discriminate|].
  intros [= <-]. destruct H as (Hwf' & Hd & _). split; assumption.
Qed.

(** A well-formed tree can be recognised by running over its entries. *)
Lemma well_formed_check (fs : FS) :
  bool_decide (map_Forall (fun q _ => Fs.is_dir fs (PurePath.parent q) = true) fs) = true ->
  well_formed fs.
Proof. intros H. apply bool_decide_eq_true_1 in H. exact H. Qed.

Lemma ensure_dir_returns_iff_witness :
  fst (ensure_dir (Sample.proj </> "docs/templates") Sample.bare) = Return tt /\
  fst (ensure_dir (Sample.proj </> "docs/templates") Sample.blocked) <> Return tt.
Proof.
  split.
  - apply (ensure_dir_returns_iff (Sample.proj </> "docs/templates") Sample.bare).
    + apply well_formed_check. vm_compute. reflexivity.
    + intros q Hq. vm_compute in Hq.
      repeat (destruct Hq as [<-|Hq]; [vm_compute; reflexivity|]). destruct Hq.
  - intros H.
    assert (Hwf : well_formed (disk Sample.blocked))
      by (apply well_formed_check; vm_compute; reflexivity).
    pose proof (proj1 (ensure_dir_returns_iff (Sample.proj </> "docs/templates")
                         Sample.blocked Hwf) H (Sample.proj </> "docs")) as Hf.
    vm_compute in Hf. assert (true = false) as E by (apply Hf; auto). discriminate E.
Defined.

Lemma ensure_dir_well_formed_witness :
  Fs.is_dir (disk (snd (ensure_dir (Sample.proj </> "docs/templates") Sample.bare)))
    (Sample.proj </> "docs") = true.
Proof.
  destruct (ensure_dir_well_formed (Sample.proj </> "docs/templates") Sample.bare
              (snd (ensure_dir (Sample.proj </> "docs/templates") Sample.bare)))
    as [_ Hd].
  - apply well_formed_check. vm_compute. reflexivity.
  - apply run_eq. vm_compute. reflexivity.
  - apply Hd. vm_compute. auto.
Defined.

(** ** [delete_dir] and [if_found_unlink] *)

Section TreeFacts.

Implicit Types (fs : FS) (p q : Path).

Lemma is_prefix_spec l1 l2 : is_prefix l1 l2 = true <-> exists l, l2 = l1 ++ l.
Proof.
  revert l2. induction l1 as [|x l1 IH]; intros l2; cbn [is_prefix].
  - split; [eauto|reflexivity].
  - destruct l2 as [|y l2].
    + split; [discriminate|]. intros [l Hl]. discriminate Hl.
    + rewrite andb_true_iff, String.eqb_eq, IH. split.
      * intros [-> [l ->]]. exists l. reflexivity.
      * intros [l [= -> ->]]. eauto.
Qed.

Lemma under_spec p q :
  under p q = true <-> anchor q = anchor p /\ exists l, parts q = parts p ++ l.
Proof.
  unfold under. rewrite andb_true_iff, bool_decide_eq_true, is_prefix_spec. reflexivity.
Qed.

Lemma under_refl p : under p p = true.
Proof. apply under_spec. split; [reflexivity|]. exists []. symmetry. apply app_nil_r. Qed.

Lemma parent_not_under p : parts p <> [] -> under p (PurePath.parent p) = false.
Proof.
  intros Hne. destruct (under p (PurePath.parent p)) eqn:E; [|reflexivity].
  apply under_spec in E as [_ [l Hl]]. cbn [PurePath.parent parts] in Hl.
  apply (f_equal (@length string)) in Hl.
  destruct (parts p) as [|x xs] using rev_ind; [contradiction|].
  rewrite removelast_last in Hl. rewrite !length_app in Hl. cbn in Hl. lia.
Qed.

Lemma lookup_without fs p q :
  Tree.without fs p !! q = if under p q then None else fs !! q.
Proof.
  unfold Tree.without. destruct (under p q) eqn:E.
  - apply map_lookup_filter_None. right. intros n _. cbn. rewrite E. discriminate.
  - destruct (fs !! q) as [n|] eqn:Hq.
    + apply map_lookup_filter_Some. split; [exact Hq|exact E].
    + apply map_lookup_filter_None. left. exact Hq.
Qed.

(** In a well-formed tree nothing lies below a path that does not exist. *)
Lemma nothing_below_missing fs p q :
  well_formed fs -> Fs.stat fs p = None -> under p q = true -> fs !! q = None.
Proof.
  intros Hwf Hp Hu. apply stat_None in Hp as [Hp Hne].
  apply under_spec in Hu as [Ha [l Hl]]. revert q Ha Hl.
  induction l as [|x l IH] using rev_ind; intros q Ha Hl.
  - rewrite app_nil_r in Hl. replace q with p; [exact Hp|].
    destruct p, q; cbn in *; congruence.
  - destruct (fs !! q) as [n|] eqn:Hq; [|reflexivity].
    pose proof (Hwf q n Hq) as Hd.
    assert (Hpar : PurePath.parent q = mkPath (anchor p) (parts p ++ l)).
    { unfold PurePath.parent. rewrite Hl, Ha, app_assoc, removelast_last. reflexivity. }
    rewrite Hpar in Hd. unfold Fs.is_dir, Fs.stat in Hd. cbn [parts] in Hd.
    rewrite (IH (mkPath (anchor p) (parts p ++ l)) eq_refl eq_refl) in Hd.
    destruct (parts p ++ l) eqn:E; [|discriminate Hd].
    destruct (parts p); [contradiction|discriminate E].
Qed.

End TreeFacts.

(** X15. [delete_dir] on a path other than the anchor returns; when the
    path is a directory, it and everything below it are gone and every
    other entry is as before; when it is a regular file or missing,
    nothing changes. *)
Theorem delete_dir_removes_tree dir_path w :
  parts dir_path <> [] ->
  fst (delete_dir dir_path w) = Ok tt /\
  (forall q, disk (snd (delete_dir dir_path w)) !! q =
             if Fs.is_dir (disk w) dir_path && under dir_path q
             then None else disk w !! q) /\
  DIG (snd (delete_dir dir_path w)) = DIG w /\
  cwd (snd (delete_dir dir_path w)) = cwd w.
Proof.
  intros Hne. unfold delete_dir.
  destruct (Fs.is_dir (disk w) dir_path) eqn:Hd; [|auto].
  unfold Tree.rmtree. unfold Fs.is_dir in Hd.
  destruct (Fs.stat (disk w) dir_path) as [[|?]|]; try discriminate.
  destruct (parts dir_path); [contradiction|]. cbn [fst snd disk DIG cwd andb].
  split; [reflexivity|]. split; [apply lookup_without|auto].
Qed.

Lemma delete_dir_removes_tree_witness :
  disk (snd (delete_dir (Sample.proj </> "tests") Sample.bare))
    !! (Sample.proj </> "tests/examples") = None /\
  disk (snd (delete_dir (Sample.proj </> "tests") Sample.bare))
    !! (Sample.proj </> "dodo.py") = Some (File None).
Proof.
  destruct (delete_dir_removes_tree (Sample.proj </> "tests") Sample.bare)
    as (_ & Hq & _); [discriminate|].
  rewrite !Hq. split; vm_compute; reflexivity.
Defined.

(** X16. In a well-formed tree, making a missing directory whose parent
    exists and deleting it again gives back the state there was. *)
Theorem ensure_then_delete dir_path w :
  well_formed (disk w) ->
  Fs.exists_ (disk w) dir_path = false ->
  Fs.is_dir (disk w) (PurePath.parent dir_path) = true ->
  exists w1,
    ensure_dir dir_path w = (Return tt, w1) /\
    delete_dir dir_path w1 = (Ok tt, w).
Proof.
  intros Hwf Hex Hpar. destruct w as [g fs here]. cbn [disk] in *.
  assert (Hp : Fs.stat fs dir_path = None)
    by (unfold Fs.exists_ in Hex; destruct (Fs.stat fs dir_path); congruence).
  assert (Hm : Fs.mkdir_p fs dir_path = inr (<[dir_path := Dir]> fs)).
  { unfold Fs.mkdir_p.
    assert (E : mkPath (anchor dir_path) (rev (rev (parts dir_path))) = dir_path)
      by (rewrite rev_involutive; destruct dir_path; reflexivity).
    unfold Fs.is_dir in Hpar.
    destruct (rev (parts dir_path)); cbn [Fs.mkdir_parents]; rewrite E;
      unfold Fs.os_mkdir; rewrite Hp;
      destruct (Fs.stat fs (PurePath.parent dir_path)) as [[|?]|];
      try discriminate; reflexivity. }
  eexists. rewrite ensure_dir_run. cbn [disk DIG cwd]. rewrite Hm.
  split; [reflexivity|].
  destruct (stat_None _ _ Hp) as [Hlook Hne].
  unfold delete_dir, Tree.rmtree, Fs.is_dir, Fs.stat. cbn [disk DIG cwd].
  destruct (parts dir_path) eqn:Eparts; [contradiction|].
  rewrite lookup_insert_eq. f_equal. f_equal.
  apply map_eq. intros q. rewrite lookup_without.
  destruct (under dir_path q) eqn:Hu.
  - symmetry. eapply nothing_below_missing; eassumption.
  - apply lookup_insert_ne. intros <-. rewrite under_refl in Hu. discriminate.
Qed.

Lemma ensure_then_delete_witness :
  exists w1,
    ensure_dir (Sample.proj </> "docs") Sample.bare = (Return tt, w1) /\
    delete_dir (Sample.proj </> "docs") w1 = (Ok tt, Sample.bare).
Proof.
  apply ensure_then_delete.
  - apply well_formed_check. vm_compute. reflexivity.
  - vm_compute. reflexivity.
  - vm_compute. reflexivity.
Defined.

(** X17. In a well-formed tree, deleting a directory and making it again
    leaves it empty: the directory exists, nothing lies below it, and
    every entry outside it is as before. *)
Theorem delete_then_ensure dir_path w :
  well_formed (disk w) ->
  parts dir_path <> [] ->
  Fs.is_dir (disk w) dir_path = true ->
  exists w1 w2,
    delete_dir dir_path w = (Ok tt, w1) /\
    ensure_dir dir_path w1 = (Return tt, w2) /\
    Fs.is_dir (disk w2) dir_path = true /\
    (forall q, under dir_path q = true -> q <> dir_path -> disk w2 !! q = None) /\
    (forall q, under dir_path q = false -> disk w2 !! q = disk w !! q).
Proof.
  intros Hwf Hne Hd. destruct w as [g fs here]. cbn [disk] in *.
  assert (Hlook : fs !! dir_path = Some Dir).
  { unfold Fs.is_dir, Fs.stat in Hd. destruct (parts dir_path); [contradiction|].
    destruct (fs !! dir_path) as [[|?]|]; congruence. }
  pose proof (Hwf _ _ Hlook) as Hpar.
  set (fs1 := Tree.without fs dir_path).
  assert (Hdel : delete_dir dir_path (mkWorld g fs here) = (Ok tt, mkWorld g fs1 here)).
  { unfold delete_dir, Tree.rmtree. cbn [disk DIG cwd]. rewrite Hd.
    unfold Fs.is_dir in Hd. destruct (Fs.stat fs dir_path) as [[|?]|]; try discriminate.
    destruct (parts dir_path); [contradiction|reflexivity]. }
  assert (Hp1 : Fs.stat fs1 dir_path = None).
  { unfold Fs.stat. destruct (parts dir_path); [contradiction|].
    unfold fs1. rewrite lookup_without, under_refl. reflexivity. }
  assert (Hpar1 : Fs.stat fs1 (PurePath.parent dir_path) = Some Dir).
  { unfold Fs.is_dir in Hpar. unfold Fs.stat in *.
    destruct (parts (PurePath.parent dir_path)); [reflexivity|].
    unfold fs1. rewrite lookup_without, (parent_not_under _ Hne).
    destruct (fs !! PurePath.parent dir_path) as [[|?]|]; congruence. }
  assert (Hm : Fs.mkdir_p fs1 dir_path = inr (<[dir_path := Dir]> fs1)).
  { unfold Fs.mkdir_p.
    assert (E : mkPath (anchor dir_path) (rev (rev (parts dir_path))) = dir_path)
      by (rewrite rev_involutive; destruct dir_path; reflexivity).
    destruct (rev (parts dir_path)); cbn [Fs.mkdir_parents]; rewrite E;
      unfold Fs.os_mkdir; rewrite Hp1, Hpar1; reflexivity. }
  exists (mkWorld g fs1 here), (mkWorld g (<[dir_path := Dir]> fs1) here).
  split; [exact Hdel|]. rewrite ensure_dir_run. cbn [disk DIG cwd]. rewrite Hm.
  split; [reflexivity|]. split; [|split].
  - unfold Fs.is_dir, Fs.stat. destruct (parts dir_path); [reflexivity|].
    rewrite lookup_insert_eq. reflexivity.
  - intros q Hu Hq. rewrite lookup_insert_ne by congruence.
    unfold fs1. rewrite lookup_without, Hu. reflexivity.
  - intros q Hu. rewrite lookup_insert_ne.
    + unfold fs1. rewrite lookup_without, Hu. reflexivity.
    + intros <-. rewrite under_refl in Hu. discriminate.
Qed.

Lemma delete_then_ensure_witness :
  exists w1 w2,
    delete_dir (Sample.proj </> "tests") Sample.bare = (Ok tt, w1) /\
    ensure_dir (Sample.proj </> "tests") w1 = (Return tt, w2) /\
    disk w2 !! (Sample.proj </> "tests/examples") = None.
Proof.
  destruct (delete_then_ensure (Sample.proj </> "tests") Sample.bare)
    as (w1 & w2 & H1 & H2 & _ & Hbelow & _).
  - apply well_formed_check. vm_compute. reflexivity.
  - discriminate.
  - vm_compute. reflexivity.
  - exists w1, w2. split; [exact H1|]. split; [exact H2|].
    apply Hbelow; [vm_compute; reflexivity|discriminate].
Defined.

(** X18. [if_found_unlink] always returns; afterwards [file_path] is not a
    file, every other entry is as before, and a path that is not a
    regular file, a directory above all, is left alone. *)
Theorem if_found_unlink_effect file_path w :
  fst (if_found_unlink file_path w) = Ok tt /\
  Fs.is_file (disk (snd (if_found_unlink file_path w))) file_path = false /\
  (forall q, q <> file_path ->
             disk (snd (if_found_unlink file_path w)) !! q = disk w !! q) /\
  (Fs.is_file (disk w) file_path = false -> snd (if_found_unlink file_path w) = w) /\
  (forall q, Fs.is_dir (disk w) q = true ->
             Fs.is_dir (disk (snd (if_found_unlink file_path w))) q = true).
Proof.
  unfold if_found_unlink. destruct (Fs.is_file (disk w) file_path) eqn:Hf.
  - unfold Tree.unlink. unfold Fs.is_file in Hf.
    destruct (Fs.stat (disk w) file_path) as [[|t]|] eqn:Hs; try discriminate.
    cbn [fst snd disk]. split; [reflexivity|].
    assert (Hne : parts file_path <> []).
    { unfold Fs.stat in Hs. destruct (parts file_path); [discriminate|discriminate]. }
    split; [|split; [|split]].
    + unfold Fs.is_file, Fs.stat. destruct (parts file_path); [reflexivity|].
      rewrite lookup_delete_eq. reflexivity.
    + intros q Hq. apply lookup_delete_ne. congruence.
    + discriminate.
    + intros q Hd. unfold Fs.is_dir, Fs.stat in *.
      destruct (parts q) eqn:Eq; [reflexivity|].
      rewrite lookup_delete_ne; [exact Hd|].
      intros <-. rewrite Eq in Hs. rewrite Hs in Hd. discriminate.
  - cbn [fst snd]. auto.
Qed.

Lemma if_found_unlink_effect_witness :
  Fs.is_file (disk Sample.bare) (Sample.proj </> "dodo.py") = true /\
  Fs.is_file (disk (snd (if_found_unlink (Sample.proj </> "dodo.py") Sample.bare)))
    (Sample.proj </> "dodo.py") = false /\
  snd (if_found_unlink (Sample.proj </> "tests") Sample.bare) = Sample.bare.
Proof.
  destruct (if_found_unlink_effect (Sample.proj </> "dodo.py") Sample.bare)
    as (_ & Hgone & _).
  destruct (if_found_unlink_effect (Sample.proj </> "tests") Sample.bare)
    as (_ & _ & _ & Hkeep & _).
  split; [vm_compute; reflexivity|]. split; [exact Hgone|].
  apply Hkeep. vm_compute. reflexivity.
Defined.

(** ** The tasks after [set_paths] *)

Lemma parent_joined p s :
  PurePath.parse_anchor s = Rel -> (exists w, PurePath.parse_parts s = [w]) ->
  PurePath.parent (p </> s) = p.
Proof.
  intros Ha [w Hw]. rewrite joinpath_rel by exact Ha. rewrite Hw, parent_snoc.
  destruct p; reflexivity.
Qed.

Lemma export_command toml w :
  toml_path (DIG w) = Some toml ->
  task_export_req w =
    (Return (debug_task
       [ShellCmd ("poetry export -f requirements.txt -o " +:+ Str.dquote
                  +:+ PurePath.to_string (PurePath.parent toml </> "requirements.txt")
                  +:+ Str.dquote +:+ " --without-hashes --dev")] 2), w).
Proof.
  intros Htoml. unfold task_export_req. rewrite Htoml.
  rewrite (joinpath_rel _ "requirements.txt") by reflexivity.
  change (PurePath.parse_parts "requirements.txt") with ["requirements.txt"].
  rewrite name_snoc. reflexivity.
Qed.



(** X20. [task_export_req] needs [toml_path] only, which [set_paths]
    assigns before it looks for the manifest: after a call that raised a
    RuntimeError the task still returns its command for the root, and after
    a call in which [ensure_dir] raised it raises AttributeError when the
    attribute was never set. *)
Theorem export_req_after_failure w pn p d :
  (forall msg, fst (set_paths pn (Some p) d w) = Raise (RuntimeError msg) ->
     fst (task_export_req (snd (set_paths pn (Some p) d w))) =
       Return (debug_task
         [ShellCmd ("poetry export -f requirements.txt -o " +:+ Str.dquote
                    +:+ PurePath.to_string (p </> "requirements.txt")
                    +:+ Str.dquote +:+ " --without-hashes --dev")] 2)) /\
  (forall e, os_error e -> toml_path (DIG w) = None ->
     fst (set_paths pn (Some p) d w) = Raise e ->
     fst (task_export_req (snd (set_paths pn (Some p) d w))) =
       Raise (AttributeError "parent")).
Proof.
  split.
  - intros msg. destruct (set_paths pn (Some p) d w) as [r w'] eqn:H.
    cbn [fst snd]. intros ->. run_set_paths H.
    all: pose proof (f_equal fst H) as Hm; pose proof (f_equal snd H) as Hw.
    all: cbv beta iota delta [fst snd] in Hm, Hw; injection Hm as Hm; clear H.
    + subst e. apply mkdir_p_error in Hmkdir.
      destruct (os_error_not_runtime _ Hmkdir).
    + destruct (load_poetry_error _ _ _ msg Hload Hm).
    + subst w'. rewrite (export_command (p </> "pyproject.toml")) by reflexivity.
      rewrite parent_joined by (reflexivity || (eexists; reflexivity)). reflexivity.
    + subst w'. rewrite (export_command (p </> "pyproject.toml")) by reflexivity.
      rewrite parent_joined by (reflexivity || (eexists; reflexivity)). reflexivity.
  - intros e Hos Hnone. rewrite set_paths_run. cbv zeta.
    destruct (Fs.mkdir_p _ _) as [e0|fs] eqn:Hmkdir.
    + intros _. cbn [snd]. unfold task_export_req. cbn. rewrite Hnone. reflexivity.
    + destruct (Fs.is_file fs _) eqn:Hfile.
      * destruct (Fs.load_poetry _ _) as [e0|t] eqn:Hload.
        -- intros [= <-]. unfold Fs.load_poetry, Fs.is_file in *.
           destruct (Fs.stat fs _) as [[|[?|]]|]; try discriminate.
           injection Hload as <-. destruct Hos as [?|[?|?]]; discriminate.
        -- destruct (t !! "version");
             [|intros [= <-]; destruct Hos as [?|[?|?]]; discriminate].
           destruct (t !! "name") as [n|];
             [|intros [= <-]; destruct Hos as [?|[?|?]]; discriminate].
           destruct (Str.contains Str.dash n); [|discriminate].
           intros [= <-]; destruct Hos as [?|[?|?]]; discriminate.
      * intros [= <-]; destruct Hos as [?|[?|?]]; discriminate.
Qed.

Lemma export_req_after_failure_witness :
  fst (task_export_req (Sample.run Sample.bare)) =
    Return (debug_task
      [ShellCmd ("poetry export -f requirements.txt -o " +:+ Str.dquote
                 +:+ "/work/proj/requirements.txt" +:+ Str.dquote
                 +:+ " --without-hashes --dev")] 2) /\
  fst (task_export_req (Sample.run Sample.blocked)) = Raise (AttributeError "parent").
Proof.
  destruct (export_req_after_failure Sample.bare None Sample.proj None) as [Hrun _].
  destruct (export_req_after_failure Sample.blocked None Sample.proj None) as [_ Hos].
  split.
  - rewrite (Hrun "Could not find pyproject.toml. Check that the /work/proj is correct")
      by (vm_compute; reflexivity).
    vm_compute. reflexivity.
  - apply (Hos NotADirectoryError).
    + right. right. reflexivity.
    + reflexivity.
    + vm_compute. reflexivity.
Defined.

(** ** The WatchCode dictionary *)

Section WatchCodeFacts.

Lemma get_set_eq {A} k (v : A) kv : Dict.get k (Dict.set k v kv) = Some v.
Proof.
  induction kv as [|[k' v'] kv IH]; cbn.
  - rewrite String.eqb_refl. reflexivity.
  - destruct (String.eqb k k') eqn:E; cbn; rewrite ?String.eqb_refl, ?E; auto.
Qed.

Lemma get_set_ne {A} k j (v : A) kv : j <> k -> Dict.get j (Dict.set k v kv) = Dict.get j kv.
Proof.
  intros Hne. apply String.eqb_neq in Hne.
  induction kv as [|[k' v'] kv IH]; cbn.
  - rewrite Hne. reflexivity.
  - destruct (String.eqb k k') eqn:E; cbn.
    + apply String.eqb_eq in E as <-. rewrite Hne. reflexivity.
    + rewrite IH. reflexivity.
Qed.

Lemma unique_spec items :
  NoDup (Dict.unique items) /\ forall x, In x (Dict.unique items) <-> In x items.
Proof.
  unfold Dict.unique. split; [apply NoDup_elements|].
  intros x. rewrite <- !list_elem_of_In, elem_of_elements, elem_of_list_to_set.
  reflexivity.
Qed.

(** A setting is there when three dictionaries lead to a list. *)
Lemma setting_Some d k1 k2 k3 old :
  setting d k1 k2 k3 = Some old <->
  exists kv1 kv2 kv3,
    d = YMap kv1 /\ Dict.get k1 kv1 = Some (YMap kv2) /\
    Dict.get k2 kv2 = Some (YMap kv3) /\ Dict.get k3 kv3 = Some (YSeq old).
Proof.
  unfold setting, Dict.subscript. split.
  - destruct d as [| | |kv1]; try discriminate.
    destruct (Dict.get k1 kv1) as [[| | |kv2]|] eqn:E1; try discriminate.
    destruct (Dict.get k2 kv2) as [[| | |kv3]|] eqn:E2; try discriminate.
    destruct (Dict.get k3 kv3) as [[| |items|]|] eqn:E3; try discriminate.
    intros [= <-]. exists kv1, kv2, kv3. auto.
  - intros (kv1 & kv2 & kv3 & -> & -> & -> & ->). reflexivity.
Qed.

(** The dictionary with the list at [k1], [k2], [k3] replaced. *)
Lemma setting_replaced kv1 kv2 kv3 k1 k2 k3 new :
  let d' := YMap (Dict.set k1 (YMap (Dict.set k2 (YMap (Dict.set k3 (YSeq new) kv3)) kv2))
                    kv1) in
  Dict.get k1 kv1 = Some (YMap kv2) ->
  Dict.get k2 kv2 = Some (YMap kv3) ->
  setting d' k1 k2 k3 = Some new /\
  forall j1 j2 j3, (j1, j2, j3) <> (k1, k2, k3) ->
                   setting d' j1 j2 j3 = setting (YMap kv1) j1 j2 j3.
Proof.
  intros d' H1 H2. subst d'. split.
  - unfold setting, Dict.subscript. rewrite !get_set_eq. reflexivity.
  - intros j1 j2 j3 Hne. unfold setting, Dict.subscript.
    destruct (decide (j1 = k1)) as [->|N1]; [|rewrite get_set_ne by exact N1; reflexivity].
    rewrite get_set_eq, H1.
    destruct (decide (j2 = k2)) as [->|N2]; [|rewrite get_set_ne by exact N2; reflexivity].
    rewrite get_set_eq, H2.
    destruct (decide (j3 = k3)) as [->|N3]; [congruence|].
    rewrite get_set_ne by exact N3. reflexivity.
Qed.

Ltac unfold_merge :=
  cbv beta iota delta
    [_merge_nested_setting mbind St_mbind St_bind St_lift St_ret St_raise read_dict].

(** One merge, when the setting is there. *)
Lemma merge_found self k1 k2 k3 values s kv1 kv2 kv3 old :
  dict_of self s = YMap kv1 -> Dict.get k1 kv1 = Some (YMap kv2) ->
  Dict.get k2 kv2 = Some (YMap kv3) -> Dict.get k3 kv3 = Some (YSeq old) ->
  _merge_nested_setting self k1 k2 k3 values s =
    store_dict self
      (YMap (Dict.set k1
               (YMap (Dict.set k2
                        (YMap (Dict.set k3 (YSeq (Dict.unique (old ++ values))) kv3))
                        kv2))
               kv1)) s.
Proof.
  intros Hd H1 H2 H3. unfold_merge. rewrite Hd. cbn [Dict.subscript].
  rewrite H1. cbn [Dict.subscript]. rewrite H2. cbn [Dict.subscript]. rewrite H3.
  reflexivity.
Qed.

(** One merge, when the setting is not there: an exception and no change. *)
Lemma merge_not_found self k1 k2 k3 values s :
  setting (dict_of self s) k1 k2 k3 = None ->
  exists e, _merge_nested_setting self k1 k2 k3 values s = (Err e, s).
Proof.
  unfold setting. unfold_merge.
  destruct (Dict.subscript (dict_of self s) k1) as [e|by_key]; [eauto|].
  destruct (Dict.subscript by_key k2) as [e|by_task]; [eauto|].
  destruct (Dict.subscript by_task k3) as [e|[| |items|]]; eauto; discriminate.
Qed.

Lemma store_dict_spec self d s :
  exists self' s',
    store_dict self d s = (Ok self', s') /\
    dict_of self' s' = d /\
    world s' = world s /\ dumped s' = dumped s /\
    commands self' = commands self /\ include self' = include self /\
    exclude self' = exclude self /\ path_wc self' = path_wc self /\
    (dict_watchcode self = Shared -> self' = self /\ template s' = d) /\
    (dict_watchcode self <> Shared -> s' = s /\ dict_watchcode self' <> Shared).
Proof.
  unfold store_dict, dict_of. destruct self as [c i e [|d0] pw]; cbn.
  - eexists _, _. split; [reflexivity|]. cbn. repeat split; congruence.
  - eexists _, _. split; [reflexivity|]. cbn. repeat split; congruence.
Qed.

End WatchCodeFacts.

Section MergeFacts.

(** What one merge that returns has done. *)
Lemma merge_inv self k1 k2 k3 values s self' s' :
  _merge_nested_setting self k1 k2 k3 values s = (Ok self', s') ->
  exists old,
    setting (dict_of self s) k1 k2 k3 = Some old /\
    setting (dict_of self' s') k1 k2 k3 = Some (Dict.unique (old ++ values)) /\
    (forall j1 j2 j3, (j1, j2, j3) <> (k1, k2, k3) ->
       setting (dict_of self' s') j1 j2 j3 = setting (dict_of self s) j1 j2 j3) /\
    world s' = world s /\ dumped s' = dumped s /\
    commands self' = commands self /\ include self' = include self /\
    exclude self' = exclude self /\ path_wc self' = path_wc self /\
    (dict_watchcode self = Shared -> self' = self) /\
    (dict_watchcode self <> Shared -> s' = s /\ dict_watchcode self' <> Shared).
Proof.
  intros H. destruct (setting (dict_of self s) k1 k2 k3) as [old|] eqn:Hs.
  - exists old. split; [reflexivity|].
    apply setting_Some in Hs as (kv1 & kv2 & kv3 & Hd & H1 & H2 & H3).
    rewrite (merge_found _ _ _ _ _ _ _ _ _ _ Hd H1 H2 H3) in H.
    destruct (store_dict_spec self
                (YMap (Dict.set k1
                         (YMap (Dict.set k2
                                  (YMap (Dict.set k3
                                           (YSeq (Dict.unique (old ++ values))) kv3))
                                  kv2)) kv1)) s)
      as (self1 & s1 & Hst & Hdict & Hw & Hdu & Hc & Hi & He & Hp & Hsh & Hown).
    rewrite Hst in H. injection H as <- <-.
    destruct (setting_replaced kv1 kv2 kv3 k1 k2 k3 (Dict.unique (old ++ values)) H1 H2)
      as [Hnew Hother].
    rewrite Hdict, Hd. split; [exact Hnew|]. split; [exact Hother|].
    repeat split; try assumption; try (apply Hsh; assumption); apply Hown; assumption.
  - destruct (merge_not_found self k1 k2 k3 values s Hs) as [e He].
    rewrite He in H. discriminate H.
Qed.

(** A merge into a setting that is there returns. *)
Lemma merge_ok self k1 k2 k3 values s old :
  setting (dict_of self s) k1 k2 k3 = Some old ->
  exists self' s', _merge_nested_setting self k1 k2 k3 values s = (Ok self', s').
Proof.
  intros Hs. apply setting_Some in Hs as (kv1 & kv2 & kv3 & Hd & H1 & H2 & H3).
  rewrite (merge_found _ _ _ _ _ _ _ _ _ _ Hd H1 H2 H3).
  destruct (store_dict_spec self
              (YMap (Dict.set k1
                       (YMap (Dict.set k2
                                (YMap (Dict.set k3
                                         (YSeq (Dict.unique (old ++ values))) kv3))
                                kv2)) kv1)) s)
    as (self1 & s1 & Hst & _).
  eauto.
Qed.

Lemma merge_settings_run self s :
  merge_settings self s =
    match _merge_nested_setting self "filesets" "default" "include" (include self) s with
    | (Ok self1, s1) =>
        match _merge_nested_setting self1 "filesets" "default" "exclude"
                (exclude self1) s1 with
        | (Ok self2, s2) =>
            _merge_nested_setting self2 "tasks" "default" "commands" (commands self2) s2
        | (Err e, s2) => (Err e, s2)
        end
    | (Err e, s1) => (Err e, s1)
    end.
Proof. reflexivity. Qed.

(** What [merge_settings] has done when it returns. *)
Lemma merge_settings_inv self s self' s' :
  merge_settings self s = (Ok self', s') ->
  exists i0 e0 c0,
    setting (dict_of self s) "filesets" "default" "include" = Some i0 /\
    setting (dict_of self s) "filesets" "default" "exclude" = Some e0 /\
    setting (dict_of self s) "tasks" "default" "commands" = Some c0 /\
    setting (dict_of self' s') "filesets" "default" "include"
      = Some (Dict.unique (i0 ++ include self)) /\
    setting (dict_of self' s') "filesets" "default" "exclude"
      = Some (Dict.unique (e0 ++ exclude self)) /\
    setting (dict_of self' s') "tasks" "default" "commands"
      = Some (Dict.unique (c0 ++ commands self)) /\
    world s' = world s /\ dumped s' = dumped s /\
    path_wc self' = path_wc self /\
    (dict_watchcode self = Shared -> self' = self) /\
    (dict_watchcode self <> Shared -> s' = s).
Proof.
  rewrite merge_settings_run.
  destruct (_merge_nested_setting self _ _ _ _ s) as [[self1|] s1] eqn:M1; [|discriminate].
  destruct (_merge_nested_setting self1 _ _ _ _ s1) as [[self2|] s2] eqn:M2; [|discriminate].
  intros M3.
  apply merge_inv in M1
      as (i0 & Hi0 & Hi1 & Ho1 & Hw1 & Hd1 & Hc1 & Hin1 & Hex1 & Hp1 & Hsh1 & Hown1).
  apply merge_inv in M2
      as (e0 & He0 & He1 & Ho2 & Hw2 & Hd2 & Hc2 & Hin2 & Hex2 & Hp2 & Hsh2 & Hown2).
  apply merge_inv in M3
      as (c0 & Hc0 & Hc3 & Ho3 & Hw3 & Hd3 & Hc3' & Hin3 & Hex3 & Hp3 & Hsh3 & Hown3).
  exists i0, e0, c0.
  rewrite Ho1 in He0 by discriminate.
  rewrite Ho2, Ho1 in Hc0 by discriminate.
  rewrite Ho3, Ho2 by discriminate.
  rewrite Ho3 by discriminate.
  rewrite Hc2, Hc1 in Hc3. rewrite Hex1 in He1.
  repeat split; try assumption; try congruence.
  - intros Hs. pose proof (Hsh1 Hs) as ->. pose proof (Hsh2 Hs) as ->. apply Hsh3, Hs.
  - intros Hn. destruct (Hown1 Hn) as [-> Hn1]. destruct (Hown2 Hn1) as [-> Hn2].
    apply Hown3, Hn2.
Qed.

(** [merge_settings] returns on a well-shaped dictionary. *)
Lemma merge_settings_ok self s :
  well_shaped (dict_of self s) ->
  exists self' s', merge_settings self s = (Ok self', s').
Proof.
  intros ([i0 Hi] & [e0 He] & [c0 Hc]). rewrite merge_settings_run.
  destruct (merge_ok self _ _ _ (include self) s i0 Hi) as (self1 & s1 & M1).
  rewrite M1. apply merge_inv in M1 as (_ & _ & _ & Ho1 & _).
  rewrite <- Ho1 in He, Hc by discriminate.
  destruct (merge_ok self1 _ _ _ (exclude self1) s1 e0 He) as (self2 & s2 & M2).
  rewrite M2. apply merge_inv in M2 as (_ & _ & _ & Ho2 & _).
  rewrite <- Ho2 in Hc by discriminate.
  apply (merge_ok self2 _ _ _ (commands self2) s2 c0 Hc).
Qed.

End MergeFacts.


(** X22. [_merge_nested_setting] raises exactly when the dictionary has no
    list at [key], [task_name], [sub_key], and then it has changed
    nothing. *)
Theorem merge_nested_setting_raises_iff self key task_name sub_key values s :
  setting (dict_of self s) key task_name sub_key = None <->
  exists e, _merge_nested_setting self key task_name sub_key values s = (Err e, s).
Proof.
  split; [apply merge_not_found|].
  intros [e He]. destruct (setting (dict_of self s) key task_name sub_key) as [old|] eqn:Hs;
    [|reflexivity].
  destruct (merge_ok self key task_name sub_key values s old Hs) as (self' & s' & Hok).
  rewrite Hok in He. discriminate He.
Qed.


Lemma St_run_eq {S A} (m : St S A) s r : fst (m s) = r -> m s = (r, snd (m s)).
Proof. destruct (m s) as [r0 s']. simpl. intros ->. reflexivity. Qed.


Lemma merge_nested_setting_raises_iff_witness :
  exists e,
    _merge_nested_setting (mkWatchCode [] [] [] Shared None)
      "notifications" "default" "include" ["a.py"] Sample2.fresh
    = (Err e, Sample2.fresh).
Proof.
  apply (proj1 (merge_nested_setting_raises_iff (mkWatchCode [] [] [] Shared None)
                  "notifications" "default" "include" ["a.py"] Sample2.fresh)).
  reflexivity.
Defined.

Lemma template_well_shaped : well_shaped _WATCHCODE_TEMPLATE.
Proof. repeat split; eexists; reflexivity. Qed.


(** X24. Two instances built without [dict_watchcode] share one
    dictionary: after the second is built, both see the same dictionary,
    and it holds the [include], [exclude] and [commands] entries of
    both. *)
Theorem shared_dictionary_accumulates c1 i1 e1 p1 c2 i2 e2 p2 s a s1 b s2 :
  _WatchCodeYAML_init c1 i1 e1 Shared p1 s = (Ok a, s1) ->
  _WatchCodeYAML_init c2 i2 e2 Shared p2 s1 = (Ok b, s2) ->
  dict_of a s2 = dict_of b s2 /\
  exists incl excl cmds,
    setting (dict_of a s2) "filesets" "default" "include" = Some incl /\
    setting (dict_of a s2) "filesets" "default" "exclude" = Some excl /\
    setting (dict_of a s2) "tasks" "default" "commands" = Some cmds /\
    (forall x, In x i1 \/ In x i2 -> In x incl) /\
    (forall x, In x e1 \/ In x e2 -> In x excl) /\
    (forall x, In x c1 \/ In x c2 -> In x cmds).
Proof.
  unfold _WatchCodeYAML_init. intros Ha Hb.
  apply merge_settings_inv in Ha
      as (i0 & e0 & c0 & _ & _ & _ & Hi1 & He1 & Hc1 & _ & _ & _ & Hsa & _).
  apply merge_settings_inv in Hb
      as (i0' & e0' & c0' & Hi0' & He0' & Hc0' & Hi2 & He2 & Hc2 & _ & _ & _ & Hsb & _).
  pose proof (Hsa eq_refl) as ->. pose proof (Hsb eq_refl) as ->.
  unfold dict_of in *. cbn [dict_watchcode include exclude commands] in *.
  split; [reflexivity|].
  rewrite Hi1 in Hi0'. rewrite He1 in He0'. rewrite Hc1 in Hc0'.
  injection Hi0' as <-. injection He0' as <-. injection Hc0' as <-.
  eexists _, _, _. split; [exact Hi2|]. split; [exact He2|]. split; [exact Hc2|].
  repeat split; intros x [Hx|Hx];
    apply (proj2 (unique_spec _)), in_or_app; auto;
    left; apply (proj2 (unique_spec _)), in_or_app; auto.
Qed.

Lemma shared_dictionary_accumulates_witness :
  exists a s1 b s2 cmds,
    _WatchCodeYAML_init ["make a"] ["a.py"] [] Shared None Sample2.fresh = (Ok a, s1) /\
    _WatchCodeYAML_init ["make b"] ["b.py"] [] Shared None s1 = (Ok b, s2) /\
    setting (dict_of b s2) "tasks" "default" "commands" = Some cmds /\
    In "make a" cmds.
Proof.
  pose (m1 := _WatchCodeYAML_init ["make a"] ["a.py"] [] Shared None).
  pose (m2 := _WatchCodeYAML_init ["make b"] ["b.py"] [] Shared None).
  pose (a := mkWatchCode ["make a"] ["a.py"] [] Shared None).
  pose (b := mkWatchCode ["make b"] ["b.py"] [] Shared None).
  assert (H1 : m1 Sample2.fresh = (Ok a, snd (m1 Sample2.fresh)))
    by (apply St_run_eq; vm_compute; reflexivity).
  assert (H2 : m2 (snd (m1 Sample2.fresh)) = (Ok b, snd (m2 (snd (m1 Sample2.fresh)))))
    by (apply St_run_eq; vm_compute; reflexivity).
  destruct (shared_dictionary_accumulates _ _ _ _ _ _ _ _ _ _ _ _ _ H1 H2)
    as (Heq & incl & excl & cmds & _ & _ & Hc & _ & _ & Hin).
  exists a, (snd (m1 Sample2.fresh)), b, (snd (m2 (snd (m1 Sample2.fresh)))), cmds.
  split; [exact H1|]. split; [exact H2|]. rewrite <- Heq.
  split; [exact Hc|]. apply Hin. left. left. reflexivity.
Defined.



(** ** [_create_yaml] *)

Section CreateYamlFacts.

Lemma create_yaml_run py s :
  _create_yaml py s =
    match merge_settings
            (mkWatchCode ["poetry run python " +:+ py] [py] [] Shared None) s with
    | (Ok wc_yaml, s1) =>
        match write wc_yaml s1 with
        | (Ok _, s2) => (Ok tt, s2)
        | (Err e, s2) => (Err e, s2)
        end
    | (Err e, s1) => (Err e, s1)
    end.
Proof. reflexivity. Qed.

(** [write()] of an instance that has no [path_wc] and shares the
    module-level dictionary. *)
Lemma write_shared cmds incl excl s :
  write (mkWatchCode cmds incl excl Shared None) s =
    match source_path (DIG (world s)) with
    | None => (Err TypeError, s)
    | Some dir =>
        match yaml_dump (template s) (dir </> ".watchcode.yaml") s with
        | (Ok _, s') => (Ok (mkWatchCode cmds incl excl Shared (Some dir)), s')
        | (Err e, s') => (Err e, s')
        end
    end.
Proof.
  unfold write. cbn [path_wc dict_watchcode commands include exclude].
  destruct (source_path (DIG (world s))); reflexivity.
Qed.

Lemma watchcode_parent dir : PurePath.parent (dir </> ".watchcode.yaml") = dir.
Proof. apply parent_joined; [reflexivity|eexists; reflexivity]. Qed.

Lemma watchcode_stat fs dir :
  Fs.stat fs (dir </> ".watchcode.yaml") = fs !! (dir </> ".watchcode.yaml").
Proof.
  rewrite (joinpath_rel dir ".watchcode.yaml") by reflexivity.
  unfold Fs.stat. cbn [parts]. destruct (parts dir); reflexivity.
Qed.

(** [yaml.dump] into a directory that exists, on a path that is not a
    directory. *)
Lemma yaml_dump_ok doc dir s :
  Fs.is_dir (disk (world s)) dir = true ->
  Fs.is_dir (disk (world s)) (dir </> ".watchcode.yaml") = false ->
  yaml_dump doc (dir </> ".watchcode.yaml") s =
    (Ok tt,
     mkProc (mkWorld (DIG (world s))
               (<[dir </> ".watchcode.yaml" := File None]> (disk (world s)))
               (cwd (world s)))
       (template s) (<[dir </> ".watchcode.yaml" := doc]> (dumped s))).
Proof.
  intros Hd Hn. unfold yaml_dump. rewrite watchcode_parent.
  unfold Fs.is_dir in Hd, Hn.
  destruct (Fs.stat (disk (world s)) dir) as [[|?]|]; try discriminate.
  destruct (Fs.stat (disk (world s)) (dir </> ".watchcode.yaml")) as [[|?]|];
    try discriminate; reflexivity.
Qed.

(** What [yaml.dump] has done when it returns. *)
Lemma yaml_dump_inv doc path s s' :
  yaml_dump doc path s = (Ok tt, s') ->
  template s' = template s /\
  dumped s' = <[path := doc]> (dumped s) /\
  DIG (world s') = DIG (world s) /\
  disk (world s') = <[path := File None]> (disk (world s)).
Proof.
  unfold yaml_dump.
  destruct (Fs.stat (disk (world s)) path) as [[|?]|];
    destruct (Fs.stat (disk (world s)) (PurePath.parent path)) as [[|?]|];
    try discriminate; intros [= <-]; auto.
Qed.

(** What [_create_yaml] has done when it returns. *)
Lemma create_yaml_inv py s s' :
  _create_yaml py s = (Ok tt, s') ->
  exists dir c0 i0,
    source_path (DIG (world s)) = Some dir /\
    source_path (DIG (world s')) = Some dir /\
    dumped s' !! (dir </> ".watchcode.yaml") = Some (template s') /\
    setting (template s) "tasks" "default" "commands" = Some c0 /\
    setting (template s') "tasks" "default" "commands"
      = Some (Dict.unique (c0 ++ ["poetry run python " +:+ py])) /\
    setting (template s) "filesets" "default" "include" = Some i0 /\
    setting (template s') "filesets" "default" "include"
      = Some (Dict.unique (i0 ++ [py])).
Proof.
  rewrite create_yaml_run.
  destruct (merge_settings _ s) as [[wc|] s1] eqn:Hm; [|discriminate].
  apply merge_settings_inv in Hm
      as (i0 & e0 & c0 & Hi0 & _ & Hc0 & Hi & _ & Hc & Hw & _ & _ & Hsh & _).
  pose proof (Hsh eq_refl) as ->. unfold dict_of in *.
  cbn [dict_watchcode include commands] in *.
  rewrite write_shared. rewrite Hw.
  destruct (source_path (DIG (world s))) as [dir|] eqn:Hsrc; [|discriminate].
  destruct (yaml_dump _ _ s1) as [[[]|] s2] eqn:Hdump; [|discriminate].
  intros [= <-]. apply yaml_dump_inv in Hdump as (Ht & Hdu & Hg & _).
  exists dir, c0, i0. rewrite Hg, Hw, Hsrc, Ht, Hdu, lookup_insert_eq. auto 10.
Qed.

End CreateYamlFacts.

(** X26. With a well-shaped module dictionary, [DIG.source_path] set to a
    directory that exists and no directory in the way, [_create_yaml]
    returns; the document dumped to [source_path / '.watchcode.yaml'] is
    the module dictionary, which now lists the script among the included
    files and its run among the commands, beside what was included
    before. *)
Theorem create_yaml_writes py s dir :
  well_shaped (template s) ->
  source_path (DIG (world s)) = Some dir ->
  Fs.is_dir (disk (world s)) dir = true ->
  Fs.is_dir (disk (world s)) (dir </> ".watchcode.yaml") = false ->
  exists s' incl cmds,
    _create_yaml py s = (Ok tt, s') /\
    dumped s' !! (dir </> ".watchcode.yaml") = Some (template s') /\
    Fs.is_file (disk (world s')) (dir </> ".watchcode.yaml") = true /\
    setting (template s') "filesets" "default" "include" = Some incl /\
    setting (template s') "tasks" "default" "commands" = Some cmds /\
    In py incl /\
    In ("poetry run python " +:+ py) cmds /\
    (forall old x, setting (template s) "filesets" "default" "include" = Some old ->
                   In x old -> In x incl).
Proof.
  intros Hws Hsrc Hd Hn.
  pose (self := mkWatchCode ["poetry run python " +:+ py] [py] [] Shared None).
  destruct (merge_settings_ok self s Hws) as (wc & s1 & Hm).
  pose proof (merge_settings_inv _ _ _ _ Hm)
    as (i0 & e0 & c0 & Hi0 & _ & _ & Hi & _ & Hc & Hw & Hdu & _ & Hsh & _).
  pose proof (Hsh eq_refl) as ->. unfold dict_of in *.
  cbn [self dict_watchcode include commands] in *.
  rewrite create_yaml_run. fold self. rewrite Hm. unfold self. rewrite write_shared.
  rewrite Hw, Hsrc. rewrite yaml_dump_ok by (rewrite Hw; assumption).
  eexists _, _, _. split; [reflexivity|]. cbn [dumped world disk template].
  split; [apply lookup_insert_eq|]. split.
  { unfold Fs.is_file. rewrite watchcode_stat, lookup_insert_eq. reflexivity. }
  split; [exact Hi|]. split; [exact Hc|].
  split; [apply (proj2 (unique_spec _)), in_or_app; right; left; reflexivity|].
  split; [apply (proj2 (unique_spec _)), in_or_app; right; left; reflexivity|].
  intros old x Hold Hx. rewrite Hi0 in Hold. injection Hold as <-.
  apply (proj2 (unique_spec _)), in_or_app. left. exact Hx.
Qed.

Lemma create_yaml_writes_witness :
  exists s' incl,
    _create_yaml "scripts/main.py" Sample2.ready = (Ok tt, s') /\
    Fs.is_file (disk (world s')) (Sample.proj </> ".watchcode.yaml") = true /\
    setting (template s') "filesets" "default" "include" = Some incl /\
    In "scripts/main.py" incl /\ In ".watchcode.yaml" incl.
Proof.
  destruct (create_yaml_writes "scripts/main.py" Sample2.ready Sample.proj)
    as (s' & incl & cmds & Hrun & _ & Hfile & Hincl & _ & Hpy & _ & Hold).
  - apply template_well_shaped.
  - vm_compute. reflexivity.
  - vm_compute. reflexivity.
  - vm_compute. reflexivity.
  - exists s', incl. repeat split; try assumption.
    apply (Hold [".watchcode.yaml"]); [reflexivity|left; reflexivity].
Defined.

(** X27. Before [set_paths] has set [DIG.source_path], [_create_yaml]
    raises TypeError and writes nothing, yet the module dictionary has
    taken the script in already. *)
Theorem create_yaml_without_root py s :
  well_shaped (template s) ->
  source_path (DIG (world s)) = None ->
  exists s' incl,
    _create_yaml py s = (Err TypeError, s') /\
    world s' = world s /\ dumped s' = dumped s /\
    setting (template s') "filesets" "default" "include" = Some incl /\
    In py incl.
Proof.
  intros Hws Hsrc.
  pose (self := mkWatchCode ["poetry run python " +:+ py] [py] [] Shared None).
  destruct (merge_settings_ok self s Hws) as (wc & s1 & Hm).
  pose proof (merge_settings_inv _ _ _ _ Hm)
    as (i0 & e0 & c0 & _ & _ & _ & Hi & _ & _ & Hw & Hdu & _ & Hsh & _).
  pose proof (Hsh eq_refl) as ->. unfold dict_of in *.
  cbn [self dict_watchcode include] in *.
  rewrite create_yaml_run. fold self. rewrite Hm. unfold self. rewrite write_shared.
  rewrite Hw, Hsrc. eexists _, _. split; [reflexivity|].
  split; [exact Hw|]. split; [exact Hdu|]. split; [exact Hi|].
  apply (proj2 (unique_spec _)), in_or_app. right. left. reflexivity.
Qed.

Lemma create_yaml_without_root_witness :
  exists s',
    _create_yaml "scripts/main.py" Sample2.fresh = (Err TypeError, s') /\
    world s' = world Sample2.fresh.
Proof.
  destruct (create_yaml_without_root "scripts/main.py" Sample2.fresh)
    as (s' & incl & Hrun & Hw & _).
  - apply template_well_shaped.
  - reflexivity.
  - exists s'. split; assumption.
Defined.

(** X28. Settings pile up from one call of [_create_yaml] to the next: the
    document the second call dumps still runs the first script and still
    includes it. *)
Theorem create_yaml_twice first second s s1 s2 :
  _create_yaml first s = (Ok tt, s1) ->
  _create_yaml second s1 = (Ok tt, s2) ->
  exists dir doc cmds incl,
    source_path (DIG (world s2)) = Some dir /\
    dumped s2 !! (dir </> ".watchcode.yaml") = Some doc /\
    setting doc "tasks" "default" "commands" = Some cmds /\
    setting doc "filesets" "default" "include" = Some incl /\
    In ("poetry run python " +:+ first) cmds /\
    In ("poetry run python " +:+ second) cmds /\
    In first incl /\ In second incl.
Proof.
  intros H1 H2.
  apply create_yaml_inv in H1 as (dir1 & c0 & i0 & _ & _ & _ & _ & Hc1 & _ & Hi1).
  apply create_yaml_inv in H2
      as (dir & c1 & i1 & _ & Hsrc & Hdump & Hc1' & Hc2 & Hi1' & Hi2).
  rewrite Hc1 in Hc1'. injection Hc1' as <-.
  rewrite Hi1 in Hi1'. injection Hi1' as <-.
  exists dir, (template s2). eexists _, _.
  split; [exact Hsrc|]. split; [exact Hdump|]. split; [exact Hc2|]. split; [exact Hi2|].
  repeat split; apply (proj2 (unique_spec _)), in_or_app.
  - left. apply (proj2 (unique_spec _)), in_or_app. right. left. reflexivity.
  - right. left. reflexivity.
  - left. apply (proj2 (unique_spec _)), in_or_app. right. left. reflexivity.
  - right. left. reflexivity.
Qed.

Lemma create_yaml_twice_witness :
  exists doc cmds,
    dumped (snd (_create_yaml "b.py" (snd (_create_yaml "a.py" Sample2.ready))))
      !! (Sample.proj </> ".watchcode.yaml") = Some doc /\
    setting doc "tasks" "default" "commands" = Some cmds /\
    In "poetry run python a.py" cmds.
Proof.
  destruct (create_yaml_twice "a.py" "b.py" Sample2.ready
              (snd (_create_yaml "a.py" Sample2.ready))
              (snd (_create_yaml "b.py" (snd (_create_yaml "a.py" Sample2.ready)))))
    as (dir & doc & cmds & incl & Hsrc & Hdump & Hc & _ & Ha & _).
  - apply St_run_eq. vm_compute. reflexivity.
  - apply St_run_eq. vm_compute. reflexivity.
  - assert (Hdir : dir = Sample.proj).
    { assert (E : source_path (DIG (world (snd (_create_yaml "b.py"
                    (snd (_create_yaml "a.py" Sample2.ready)))))) = Some Sample.proj)
        by (vm_compute; reflexivity).
      rewrite Hsrc in E. injection E as E. exact E. }
    subst dir. exists doc, cmds. repeat split; assumption.
Defined.
